(** * Medical imaging diagnosis agent (app.py): a shallow embedding

    The Streamlit script [app.py] is embedded as a computation over an
    explicit run state: the session state, the files on disk, the elements
    rendered on the page and the calls made to external services.  The
    vendor libraries the script calls (the model client, [requests], PIL,
    the Streamlit widgets) are not part of the repository; the services, the
    decoded images and the points on which the releases of Streamlit differ
    are an [environment] of oracles, and the other library calls follow the
    libraries' documented behaviour. *)

From Stdlib Require Import ZArith String List Bool Lia.
From Stdlib.Strings Require Import Byte Ascii.
From Stdlib Require Import Floats Uint63.
From stdpp Require Import base option gmap strings list.

#[local] Set Warnings "-register-all".

Local Open Scope string_scope.
Local Open Scope Z_scope.
Local Open Scope list_scope.

(** ** Python values the script handles *)

(** Exceptions.  Every constructor but the last two is an instance of
    Python's [Exception]; [RerunException] (raised by [st.rerun]) and
    [BaseOnly] (KeyboardInterrupt, SystemExit, ...) derive from
    [BaseException] only, so [except Exception] does not catch them. *)
Inductive exn : Type :=
  | AttributeError (msg : string)
  | KeyError (key : string)
  | TypeError (msg : string)
  | ValueError (msg : string)
  | ZeroDivisionError (msg : string)
  | OverflowError (msg : string)
  | MemoryError
  | OSError (msg : string)
  | FileNotFoundError (path : string)
  | UnidentifiedImageError
  | StreamlitAPIException (msg : string)
  | HTTPError (status : Z)
  | JSONDecodeError
  | ServiceError (cls msg : string)
  | RerunException
  | BaseOnly (cls : string).

Definition is_Exception (e : exn) : bool :=
  match e with
  | RerunException | BaseOnly _ => false
  | _ => true
  end.

(** The result of evaluating a Python expression or statement. *)
Inductive outcome (A : Type) : Type :=
  | Returned (a : A)
  | Raised (e : exn).
Arguments Returned {A} a.
Arguments Raised {A} e.

#[export] Instance outcome_ret : MRet outcome := @Returned.
#[export] Instance outcome_bind : MBind outcome := λ A B k o,
  match o with
  | Returned a => k a
  | Raised e => Raised e
  end.

(** A parsed JSON document, as [response.json()] builds it: objects are
    dicts (written here in the order of the members, a later member
    replacing an earlier one with the same key), arrays are lists. *)
Inductive json : Type :=
  | JNull
  | JBool (b : bool)
  | JInt (n : Z)
  | JFloat (f : float)
  | JStr (s : string)
  | JArr (items : list json)
  | JObj (members : list (string * json)).

(** [d.get(key)] on the dict built from [members]: the last member with
    that key, if any. *)
Fixpoint dict_lookup (key : string) (members : list (string * json)) : option json :=
  match members with
  | [] => None
  | (k, v) :: rest =>
      match dict_lookup key rest with
      | Some v' => Some v'
      | None => if String.eqb k key then Some v else None
      end
  end.

(** The keys of the dict, each once, in the order of first insertion. *)
Fixpoint dict_keys (members : list (string * json)) (seen : list string) : list string :=
  match members with
  | [] => []
  | (k, _) :: rest =>
      if existsb (String.eqb k) seen then dict_keys rest seen
      else k :: dict_keys rest (k :: seen)
  end.

(** The characters of a string, each a string of length one. *)
Fixpoint chars (s : string) : list string :=
  match s with
  | EmptyString => []
  | String c rest => String c EmptyString :: chars rest
  end.

(** [value.get(key, default)]: only dicts have the method. *)
Definition py_get (value : json) (key : string) (fallback : json) : outcome json :=
  match value with
  | JObj members => Returned (default fallback (dict_lookup key members))
  | _ => Raised (AttributeError "object has no attribute 'get'")
  end.

(** [value[key]] with a string key. *)
Definition py_getitem (value : json) (key : string) : outcome json :=
  match value with
  | JObj members =>
      match dict_lookup key members with
      | Some v => Returned v
      | None => Raised (KeyError key)
      end
  | JArr _ => Raised (TypeError "list indices must be integers or slices, not str")
  | JStr _ => Raised (TypeError "string indices must be integers")
  | _ => Raised (TypeError "object is not subscriptable")
  end.

(** [iter(value)], run to the end: what a [for] loop will visit. *)
Definition py_iter (value : json) : outcome (list json) :=
  match value with
  | JArr items => Returned items
  | JObj members => Returned (JStr <$> dict_keys members [])
  | JStr s => Returned (JStr <$> chars s)
  | _ => Raised (TypeError "object is not iterable")
  end.

(** ** The run state *)

(** The text handed to a Streamlit element.  An f-string is kept as its
    parts: [Val v] stands for [str(v)], [Exn e] for [str(e)]. *)
Inductive fpart : Type :=
  | Lit (s : string)
  | Val (v : json)
  | Exn (e : exn).

Definition text : Type := list fpart.
Definition plain (s : string) : text := [Lit s].

(** The elements [st.*] calls put on the page. *)
Inductive element : Type :=
  | StTitle (body : text)
  | StTextInput (label : string)
  | StCaption (body : text)
  | StSuccess (body : text)
  | StButton (label : string)
  | StError (body : text)
  | StInfo (body : text)
  | StWarning (body : text)
  | StWrite (v : json)
  | StFileUploader (label : string) (types : list string)
  | StImage (size : Z * Z) (caption : string)
  | StMarkdown (body : text).

(** The agent object: [Agent(model=Gemini(api_key=..., id=...), tools=None,
    markdown=True)]. *)
Record agent : Type := Agent {
  model_api_key : string;
  model_id : string;
  tools : option (list string);
  markdown : bool;
}.

(** A query parameter of an HTTP request. *)
Inductive param : Type :=
  | PStr (s : string)
  | PInt (n : Z).

(** Calls to the external services, in the order they are made.  A model
    call records, for each image path it is given, the bytes found at that
    path when the call is made. *)
Inductive call : Type :=
  | ModelRun (a : agent) (prompt : string) (images : list (string * option (list Byte.byte)))
  | HttpGet (url : string) (params : list (string * param)).

Record state : Type := State {
  session_state : gmap string (option string);
  files : gmap string (list Byte.byte);
  page : list element;
  calls : list call;
}.

(** An HTTP response: its status code and its body parsed as JSON ([None]
    when the body is not JSON). *)
Record response : Type := Response {
  status_code : Z;
  json_body : option json;
}.

(** A PIL image as [Image.open] returns it: the size read from the header,
    the pixel data still in the file.  [image_load] is the exception, if
    any, that loading the pixel data raises (a truncated or corrupt file);
    [image_new size] the one, if any, that building an image of that size in
    this image's mode raises (no memory for it). *)
Record image : Type := PILImage {
  image_size : Z * Z;
  image_load : option exn;
  image_new : Z * Z → option exn;
}.

(** The services and libraries outside the script. *)
Record environment : Type := Environment {
  (** [agent.run(prompt, images=paths)]: its result, and what it leaves on
      disk. *)
  agent_run : agent → string → list string → gmap string (list Byte.byte) →
              outcome string * gmap string (list Byte.byte);
  (** [requests.get(url, params=params)], redirects followed. *)
  requests_get : string → list (string * param) → outcome response;
  (** [Image.open(file)]. *)
  image_open : list Byte.byte → outcome image;
  (** Whether the installed Streamlit has [st.experimental_rerun]: it is
      there up to release 1.36 and gone from 1.37. *)
  has_experimental_rerun : bool;
  (** Whether the installed Streamlit checks on the server the [type] of
      [st.file_uploader]: from release 1.43 it does; before, only the
      widget in the browser does. *)
  upload_type_enforced : bool;
}.

(** ** Script computations: state passing with exceptions *)

Definition script (A : Type) : Type := state → outcome A * state.

Definition ret {A} (a : A) : script A := λ s, (Returned a, s).
Definition raise {A} (e : exn) : script A := λ s, (Raised e, s).
Definition bind {A B} (m : script A) (k : A → script B) : script B :=
  λ s, match m s with
       | (Returned a, s') => k a s'
       | (Raised e, s') => (Raised e, s')
       end.
Definition lift {A} (o : outcome A) : script A := λ s, (o, s).

(** The script monad in stdpp's notation: [x ← m; k] and [m ;; k]. *)
#[export] Instance script_ret : MRet script := @ret.
#[export] Instance script_bind : MBind script := λ A B k m, bind m k.

(** [try: body except Exception as e: handler e finally: finalizer]. *)
Definition try_except_finally {A} (body : script A) (handler : exn → script A)
    (finalizer : script unit) : script A :=
  λ s,
    let (r, s1) :=
      match body s with
      | (Returned a, s') => (Returned a, s')
      | (Raised e, s') => if is_Exception e then handler e s' else (Raised e, s')
      end in
    match finalizer s1 with
    | (Returned _, s2) => (r, s2)
    | (Raised e, s2) => (Raised e, s2)
    end.

(** [for x in xs: body x]. *)
Fixpoint for_each {A} (xs : list A) (body : A → script unit) : script unit :=
  match xs with
  | [] => ret tt
  | x :: rest => body x ;; for_each rest body
  end.

Definition render (el : element) : script unit :=
  λ s, (Returned tt, State (session_state s) (files s) (page s ++ [el]) (calls s)).


(** ** Library calls *)

(** [with open(path, "wb") as f: f.write(data)]: creates the file or
    replaces its content. *)
Definition write_file (path : string) (data : list Byte.byte) : script unit :=
  λ s, (Returned tt, State (session_state s) (<[path:=data]> (files s)) (page s) (calls s)).

Definition os_path_exists (path : string) : script bool :=
  λ s, (Returned (bool_decide (is_Some (files s !! path))), s).

Definition os_remove (path : string) : script unit :=
  λ s, match files s !! path with
       | Some _ => (Returned tt, State (session_state s) (delete path (files s)) (page s) (calls s))
       | None => (Raised (FileNotFoundError path), s)
       end.

(** [st.session_state.<key>] read and written as an attribute. *)
Definition session_getattr (key : string) : script (option string) :=
  λ s, match session_state s !! key with
       | Some v => (Returned v, s)
       | None => (Raised (AttributeError key), s)
       end.

Definition session_setattr (key : string) (v : option string) : script unit :=
  λ s, (Returned tt, State (<[key:=v]> (session_state s)) (files s) (page s) (calls s)).

Definition session_contains (key : string) : script bool :=
  λ s, (Returned (bool_decide (is_Some (session_state s !! key))), s).

(** Truth value of [None] or a [str]. *)
Definition truthy (v : option string) : bool :=
  match v with
  | None => false
  | Some s => negb (String.eqb s "")
  end.

Definition st_title (s : string) : script unit := render (StTitle (plain s)).
Definition st_caption (s : string) : script unit := render (StCaption (plain s)).
Definition st_success (s : string) : script unit := render (StSuccess (plain s)).
Definition st_error (body : text) : script unit := render (StError body).
Definition st_info (s : string) : script unit := render (StInfo (plain s)).
Definition st_warning (s : string) : script unit := render (StWarning (plain s)).
Definition st_markdown (body : text) : script unit := render (StMarkdown body).
Definition st_write (v : json) : script unit := render (StWrite v).

(** [st.text_input(label, type="password")] and [st.button(label)] draw the
    widget and return the value the browser sent for it. *)
Definition st_text_input (label value : string) : script string :=
  render (StTextInput label);; mret value.
Definition st_button (label : string) (clicked : bool) : script bool :=
  render (StButton label);; mret clicked.

(** [st.rerun()] stops the run. *)
Definition st_rerun : script unit := raise RerunException.

(** [response.raise_for_status()] of [requests]: an [HTTPError] for a 4xx
    client error or a 5xx server error, nothing for any other status. *)
Definition raise_for_status (r : response) : script unit :=
  if (400 <=? status_code r) && (status_code r <? 600)
  then raise (HTTPError (status_code r))
  else mret tt.

(** [response.json()]. *)
Definition response_json (r : response) : script json :=
  match json_body r with
  | Some v => mret v
  | None => raise JSONDecodeError
  end.

(** What [agent.run] returns: [response.content] is the generated text. *)
Record run_response : Type := RunResponse { content : string }.

Section App.

Variable env : environment.
(** [st.secrets]: the deployment's secrets file, a mapping. *)
Variable secrets : gmap string string.

Definition http_get (url : string) (params : list (string * param)) : script response :=
  λ s, (requests_get env url params,
        State (session_state s) (files s) (page s) (calls s ++ [HttpGet url params])).

(** [st.experimental_rerun()]: the same where Streamlit still has it; where
    it does not, the attribute lookup on the module fails. *)
Definition st_experimental_rerun : script unit :=
  if has_experimental_rerun env then st_rerun
  else raise (AttributeError "module 'streamlit' has no attribute 'experimental_rerun'").

Definition secrets_contains (key : string) : bool :=
  bool_decide (is_Some (secrets !! key)).

Definition secrets_getitem (key : string) : script string :=
  match secrets !! key with
  | Some v => mret v
  | None => raise (KeyError key)
  end.

(** [medical_agent.run(prompt, images=paths)]; when [medical_agent] is
    [None] the attribute lookup itself fails and nothing is called. *)
Definition run (medical_agent : option agent) (prompt : string) (paths : list string)
    : script run_response :=
  match medical_agent with
  | None => raise (AttributeError "'NoneType' object has no attribute 'run'")
  | Some a =>
      λ s, let (r, fs) := agent_run env a prompt paths (files s) in
           (match r with
            | Returned t => Returned (RunResponse t)
            | Raised e => Raised e
            end,
            State (session_state s) fs (page s)
                  (calls s ++ [ModelRun a prompt ((λ p, (p, files s !! p)) <$> paths)]))
  end.

(** ** app.py, lines 9-19 *)

Definition google_custom_search (query api_key cse_id : string) (num_results : option Z)
    : script json :=
  let num_results := default 3 num_results in
  let search_url := "https://www.googleapis.com/customsearch/v1" in
  let params := [("q", PStr query); ("key", PStr api_key);
                 ("cx", PStr cse_id); ("num", PInt num_results)] in
  response ← http_get search_url params;
  raise_for_status response;;
  body ← response_json response;
  lift (py_get body "items" (JArr [])).


(** ** app.py, lines 130-139: the display copy *)

(** [float(n)] for an int from 0 to below 2^63; exact below 2^53, as for
    the image sizes of PIL, which are C ints. *)
Definition float_of_int (n : Z) : float := PrimFloat.of_uint63 (Uint63.of_Z n).

(** [a / b] on ints: true division, correctly rounded. *)
Definition int_truediv (a b : Z) : outcome float :=
  if b =? 0 then Raised (ZeroDivisionError "division by zero")
  else Returned (float_of_int a / float_of_int b)%float.

(** [a / x] with an int [a] and a float [x]. *)
Definition float_rtruediv (a : Z) (x : float) : outcome float :=
  if (x =? 0)%float then Raised (ZeroDivisionError "float division by zero")
  else Returned (float_of_int a / x)%float.

(** [int(x)] on a float: truncation towards zero. *)
Definition py_int (x : float) : outcome Z :=
  match Prim2SF x with
  | S754_zero _ => Returned 0
  | S754_finite s m e =>
      Returned (cond_Zopp s (if 0 <=? e then Z.pos m * 2 ^ e else Z.pos m / 2 ^ (- e)))
  | S754_infinity _ => Raised (OverflowError "cannot convert float infinity to integer")
  | S754_nan => Raised (ValueError "cannot convert float NaN to integer")
  end.

(** [image.resize(size)] of PIL, giving the size of the new image.  The
    pixel data is loaded first; the two numbers of [size] are then read as C
    ints, a size below one pixel is refused, and the new image is built: it
    has the requested size. *)
Definition image_resize (im : image) (size : Z * Z) : outcome (Z * Z) :=
  match image_load im with
  | Some e => Raised e
  | None =>
      if (2 ^ 31 <=? size.1) || (2 ^ 31 <=? size.2)
      then Raised (OverflowError "signed integer is greater than maximum")
      else if (size.1 <? - 2 ^ 31) || (size.2 <? - 2 ^ 31)
      then Raised (OverflowError "signed integer is less than minimum")
      else if negb ((1 <=? size.1) && (1 <=? size.2))
      then Raised (ValueError "height and width must be > 0")
      else match image_new im size with
           | Some e => Raised e
           | None => Returned size
           end
  end.

(** Lines 135-139, from [image.size] to the size of [resized_image]. *)
Definition resized_image (image : image) : outcome (Z * Z) :=
  let '(width, height) := image_size image in
  aspect_ratio ← int_truediv width height;
  let new_width := 500 in
  quotient ← float_rtruediv new_width aspect_ratio;
  new_height ← py_int quotient;
  image_resize image (new_width, new_height).

(** ** app.py, lines 123-128: the uploader *)

Record uploaded : Type := Uploaded {
  name : string;
  getbuffer : list Byte.byte;
}.

Definition lower_ascii (c : ascii) : ascii :=
  let n := N_of_ascii c in
  if ((65 <=? n) && (n <=? 90))%N then ascii_of_N (n + 32) else c.

Fixpoint lower (s : string) : string :=
  match s with
  | EmptyString => EmptyString
  | String c rest => String (lower_ascii c) (lower rest)
  end.

Definition ends_with (suffix s : string) : bool :=
  let n := String.length s in
  let m := String.length suffix in
  (m <=? n)%nat && String.eqb (substring (n - m) m s) suffix.

(** Whether a file name has one of the [types]: it must end, whatever the
    case, in a dot and one of them. *)
Definition allowed_name (types : list string) (filename : string) : bool :=
  existsb (λ t, ends_with ("." +:+ lower t) (lower filename)) types.

(** [st.file_uploader(label, type=types)]: the file the browser sent for
    the widget, if any.  The widget in the browser offers only files of the
    given types, but the script gets what was sent: a Streamlit that checks
    the type on the server raises on a file of another type, before the
    widget is drawn, and one that does not hands the file over like any
    other. *)
Definition st_file_uploader (label : string) (types : list string)
    (sent : option uploaded) : script (option uploaded) :=
  match sent with
  | Some f =>
      if upload_type_enforced env && negb (allowed_name types (name f))
      then raise (StreamlitAPIException "Invalid file extension")
      else render (StFileUploader label types);; mret (Some f)
  | None => render (StFileUploader label types);; mret None
  end.

(** ** app.py, lines 21-74: configuration *)

(** What the browser sends for the widgets of one run. *)
Record widgets : Type := Widgets {
  gemini_key_input : string;
  reset_clicked : bool;
  chosen_file : option uploaded;
  analyze_clicked : bool;
}.

(** Lines 22-23. *)
Definition init_session_state : script unit :=
  present ← session_contains "GEMINI_API_KEY";
  if negb present then session_setattr "GEMINI_API_KEY" None else mret tt.

(** Lines 25-59. *)
Definition sidebar (w : widgets) : script unit :=
  st_title "ℹ️ Configuration";;
  key ← session_getattr "GEMINI_API_KEY";
  (if negb (truthy key) then
     gemini_key ← st_text_input "Enter your Gemini API Key:" (gemini_key_input w);
     st_caption "Get your API key from [Google AI Studio](https://aistudio.google.com/apikey) 🔑";;
     if truthy (Some gemini_key) then
       session_setattr "GEMINI_API_KEY" (Some gemini_key);;
       st_success "Gemini API Key saved!";;
       st_rerun
     else mret tt
   else
     st_success "Gemini API Key is configured";;
     clicked ← st_button "🔄 Reset Gemini API Key" (reset_clicked w);
     if (clicked : bool) then
       session_setattr "GEMINI_API_KEY" None;;
       st_experimental_rerun
     else mret tt);;
  (if negb (secrets_contains "SERPER_API_KEY")
   then st_error (plain "Please add your Serper API Key to the Streamlit secrets.")
   else mret tt);;
  st_info ("This tool provides AI-powered analysis of medical imaging data using " +:+
           "advanced computer vision and radiological expertise.");;
  st_warning ("⚠DISCLAIMER: This tool is for educational and informational purposes only. " +:+
              "All analyses should be reviewed by qualified healthcare professionals. " +:+
              "Do not make medical decisions based solely on this analysis.").

(** Lines 62-71: [medical_agent] is [None] unless both keys are there. *)
Definition init_medical_agent : script (option agent) :=
  key ← session_getattr "GEMINI_API_KEY";
  if truthy key && secrets_contains "SERPER_API_KEY" then
    mret (Some (Agent (default "" key) "gemini-2.0-flash-exp" None true))
  else mret None.

(** Lines 77-113. *)
Definition query : string := "
You are a highly skilled medical imaging expert with extensive knowledge in radiology and diagnostic imaging. Analyze the patient's medical image and structure your response as follows:

### 1. Image Type & Region
- Specify imaging modality (X-ray/MRI/CT/Ultrasound/etc.)
- Identify the patient's anatomical region and positioning
- Comment on image quality and technical adequacy

### 2. Key Findings
- List primary observations systematically
- Note any abnormalities in the patient's imaging with precise descriptions
- Include measurements and densities where relevant
- Describe location, size, shape, and characteristics
- Rate severity: Normal/Mild/Moderate/Severe

### 3. Diagnostic Assessment
- Provide primary diagnosis with confidence level
- List differential diagnoses in order of likelihood
- Support each diagnosis with observed evidence from the patient's imaging
- Note any critical or urgent findings

### 4. Patient-Friendly Explanation
- Explain the findings in simple, clear language that the patient can understand
- Avoid medical jargon or provide clear definitions
- Include visual analogies if helpful
- Address common patient concerns related to these findings

### 5. Research Context
IMPORTANT: Use the GoogleSearch tool to:
- Find recent medical literature about similar cases
- Search for standard treatment protocols
- Provide a list of relevant medical links
- Research any relevant technological advances
- Include 2-3 key references to support your analysis

Format your response using clear markdown headers and bullet points. Be concise yet thorough.
".

(** ** app.py, lines 154-187: the analysis trigger *)

Definition image_path : string := "temp_medical_image.png".

(** Lines 178-181, one search result. *)
Definition render_result (result : json) : script unit :=
  title ← lift (py_getitem result "title");
  link ← lift (py_getitem result "link");
  st_markdown [Lit "**["; Val title; Lit "]("; Val link; Lit ")**"];;
  snippet ← lift (py_getitem result "snippet");
  st_write snippet;;
  st_markdown (plain "---").

(** Lines 171-181: the search and its results. *)
Definition literature : script unit :=
  api_key ← secrets_getitem "SERPER_API_KEY";
  search_results ← google_custom_search "Medical imaging abnormalities similar cases"
                     api_key "custom-search-engine-id" None;
  st_markdown (plain "### 🔗 Relevant Medical Literature");;
  results ← lift (py_iter search_results);
  for_each results render_result.

(** Lines 161-181, the body of the [try]. *)
Definition analysis (medical_agent : option agent) : script unit :=
  response ← run medical_agent query [image_path];
  st_markdown (plain "### 📋 Analysis Results");;
  st_markdown (plain "---");;
  st_markdown (plain (content response));;
  st_markdown (plain "---");;
  st_caption ("Note: This analysis is generated by AI and should be reviewed by " +:+
              "a qualified healthcare professional.");;
  literature.

(** Lines 186-187, the [finally]. *)
Definition cleanup : script unit :=
  present ← os_path_exists image_path;
  if (present : bool) then os_remove image_path else mret tt.

(** Lines 155-187, run when [analyze_button] is true.  The spinner of line
    159 is on the page only while the block runs and is not recorded. *)
Definition analyze (medical_agent : option agent) (uploaded_file : uploaded) : script unit :=
  write_file image_path (getbuffer uploaded_file);;
  try_except_finally
    (analysis medical_agent)
    (λ e, st_error [Lit "Analysis error: "; Exn e])
    cleanup.

(** ** app.py as a whole: one run of the script *)

(** Lines 116-189, the page below the configuration. *)
Definition app_ui (w : widgets) (medical_agent : option agent) : script unit :=
  st_title "🏥 Medical Imaging Diagnosis Agent";;
  st_write (JStr "Upload a medical image for professional analysis");;
  uploaded_file ← st_file_uploader "Upload Medical Image"
                    ["jpg"; "jpeg"; "png"; "dicom"] (chosen_file w);
  match uploaded_file with
  | Some file =>
      image ← lift (image_open env (getbuffer file));
      resized_image ← lift (resized_image image);
      render (StImage resized_image "Uploaded Medical Image");;
      analyze_button ← st_button "🔍 Analyze Image" (analyze_clicked w);
      if (analyze_button : bool) then analyze medical_agent file else mret tt
  | None => st_info "👆 Please upload a medical image to begin analysis."
  end.

Definition app (w : widgets) : script unit :=
  init_session_state;;
  sidebar w;;
  medical_agent ← init_medical_agent;
  (if medical_agent is None
   then st_warning "Please configure both the Gemini and Serper API keys to continue."
   else mret tt);;
  app_ui w medical_agent.

End App.

(** ** Vocabulary of the statements *)

(** The calls a computation adds to those already made. *)
Definition calls_made {A} (m : script A) (s : state) : list call :=
  drop (length (calls s)) (calls (m s).2).

(** [s'] differs from [s] by elements appended to the page only. *)
Definition appends (s s' : state) : Prop :=
  session_state s' = session_state s ∧ files s' = files s ∧ calls s' = calls s ∧
  ∃ els, page s' = page s ++ els.

Definition search_url : string := "https://www.googleapis.com/customsearch/v1".

Definition search_params (query api_key cse_id : string) (num_results : Z)
    : list (string * param) :=
  [("q", PStr query); ("key", PStr api_key); ("cx", PStr cse_id); ("num", PInt num_results)].

(** What [google_custom_search] returns for a given answer of [requests.get]. *)
Definition search_result (answer : outcome response) : outcome json :=
  match answer with
  | Raised e => Raised e
  | Returned r =>
      if (400 <=? status_code r) && (status_code r <? 600)
      then Raised (HTTPError (status_code r))
      else match json_body r with
           | None => Raised JSONDecodeError
           | Some body => py_get body "items" (JArr [])
           end
  end.

(** The one search request [analyze] can make, for the configured key. *)
Definition fixed_search (api_key : string) : call :=
  HttpGet search_url
    (search_params "Medical imaging abnormalities similar cases" api_key
       "custom-search-engine-id" 3).

(** The elements the report adds to the page for a model answer [t]. *)
Definition report (t : string) : list element :=
  [StMarkdown (plain "### 📋 Analysis Results"); StMarkdown (plain "---");
   StMarkdown (plain t); StMarkdown (plain "---");
   StCaption (plain ("Note: This analysis is generated by AI and should be reviewed by " +:+
                     "a qualified healthcare professional."))].

Definition error_message (e : exn) : element :=
  StError [Lit "Analysis error: "; Exn e].

(** The model call [analyze] makes for agent [a] and the uploaded [file]. *)
Definition model_call (a : agent) (file : uploaded) : call :=
  ModelRun a query [(image_path, Some (getbuffer file))].

(** The disk as the model call finds it. *)
Definition disk_at_call (file : uploaded) (s : state) : gmap string (list Byte.byte) :=
  <[image_path:=getbuffer file]> (files s).

(** The extensions the uploader is given on line 126. *)
Definition upload_types : list string := ["jpg"; "jpeg"; "png"; "dicom"].

(** The file sent, when its name has one of these extensions. *)
Definition accepted (w : widgets) : option uploaded :=
  match chosen_file w with
  | Some f => if allowed_name upload_types (name f) then Some f else None
  | None => None
  end.

(** What line 124 gives the script. *)
Definition handed (env : environment) (w : widgets) : outcome (option uploaded) :=
  match chosen_file w with
  | Some f =>
      if upload_type_enforced env && negb (allowed_name upload_types (name f))
      then Raised (StreamlitAPIException "Invalid file extension")
      else Returned (Some f)
  | None => Returned None
  end.

(** An image whose pixel data loads and for which there is memory. *)
Definition sound_image (size : Z * Z) : image := PILImage size None (λ _, None).

(** What lines 116-151 put on the page for an image whose display copy has
    the size [resized]. *)
Definition upload_page (resized : Z * Z) : list element :=
  [StTitle (plain "🏥 Medical Imaging Diagnosis Agent");
   StWrite (JStr "Upload a medical image for professional analysis");
   StFileUploader "Upload Medical Image" upload_types;
   StImage resized "Uploaded Medical Image";
   StButton "🔍 Analyze Image"].

(** ** Vocabulary of the float proofs *)

(** The least exponent of binary64. *)
Abbreviation emin64 := (-1074) (only parsing).

(** The last step of [binary_round_aux]: a rounded mantissa of 53 bits is
    kept, the one of 54 bits, [2^53], is renormalised. *)
Definition renormalise (s : bool) (m e : Z) : spec_float :=
  if m <? 2 ^ 53 then S754_finite s (Z.to_pos m) e
  else S754_finite s (Z.to_pos (2 ^ 52)) (e + 1).

(** One bit shifted out of [m]: what is left, and where the exact value
    lies between it and its successor. *)
Definition halved (m : Z) (l : location) : Z * location :=
  (m / 2,
   match Z.odd m, l with
   | false, loc_Exact => loc_Exact
   | false, loc_Inexact _ => loc_Inexact Lt
   | true, loc_Exact => loc_Inexact Eq
   | true, loc_Inexact _ => loc_Inexact Gt
   end).

(** What a location says about the remainder [r] of a division by [d]. *)
Definition located (l : location) (r d : Z) : Prop :=
  match l with
  | loc_Exact => r = 0
  | loc_Inexact Lt => 0 < 2 * r < d
  | loc_Inexact Eq => 2 * r = d
  | loc_Inexact Gt => d < 2 * r
  end.

(** ** The claims that fail as stated, as propositions *)

(** The search call raises on every response that is not a 2xx. *)
Definition search_raises_on_every_non_2xx : Prop :=
  ∀ env q k c n s r,
    requests_get env search_url (search_params q k c (default 3 n)) = Returned r →
    ¬ (200 ≤ status_code r < 300) →
    ∃ e, (google_custom_search env q k c n s).1 = Raised e.


(** No run that was sent a file with an extension outside the list calls
    the model or the search service. *)
Definition disallowed_upload_never_calls : Prop :=
  ∀ env secrets w s f,
    chosen_file w = Some f →
    allowed_name upload_types (name f) = false →
    calls_made (app env secrets w) s = [].

(** ** Sample runs *)

Definition sample_agent : agent := Agent "K1" "gemini-2.0-flash-exp" None true.
Definition sample_file : uploaded := Uploaded "scan.png" [x89; x50; x4e; x47].
Definition sample_secrets : gmap string string := {[ "SERPER_API_KEY" := "S1" ]}.
Definition sample_state : state := State {[ "GEMINI_API_KEY" := Some "K1" ]} ∅ [] [].

(** The body [{"items":[{"title":"A","link":"http://x","snippet":"s"}]}],
    parsed. *)
Definition one_item : json :=
  JObj [("title", JStr "A"); ("link", JStr "http://x"); ("snippet", JStr "s")].
Definition one_item_body : json := JObj [("items", JArr [one_item])].

(** An environment whose model call and search request have fixed answers,
    with a Streamlit on which the whole script runs (1.27 to 1.36: it has
    both [st.rerun] and [st.experimental_rerun]). *)
Definition env_of (model : outcome string) (search : outcome response) : environment :=
  Environment (λ _ _ _ fs, (model, fs)) (λ _ _, search)
              (λ _, Returned (sound_image (640, 480))) true false.

(** The same services behind a Streamlit from release 1.43 on. *)
Definition later_streamlit (env : environment) : environment :=
  Environment (agent_run env) (requests_get env) (image_open env) false true.

Definition timed_out : exn := ServiceError "TimeoutError" "The read operation timed out".
Definition found_one : outcome response := Returned (Response 200 (Some one_item_body)).

Definition second_item : json :=
  JObj [("title", JStr "B"); ("link", JStr "http://y"); ("snippet", JStr "t")].
Definition found_two : outcome response :=
  Returned (Response 200 (Some (JObj [("items", JArr [one_item; second_item])]))).

(** The browser's side of a run with "scan.png" uploaded and the button
    clicked. *)
Definition trigger : widgets := Widgets "" false (Some sample_file) true.

(** A model that copies what it finds at the first path it is given. *)
Definition env_copying : environment :=
  Environment (λ _ _ paths fs,
                 (Returned "### Findings...",
                  match head paths ≫= (fs !!.) with
                  | Some data => <["seen.bin":=data]> fs
                  | None => fs
                  end))
              (λ _ _, found_one)
              (λ _, Returned (sound_image (640, 480))) true false.

Definition gif_file : uploaded := Uploaded "scan.gif" [x47; x49; x46].
Definition gif_trigger : widgets := Widgets "" false (Some gif_file) true.

(** * Further vocabulary *)

(** The model key the session holds; [None] when the attribute is missing
    or is [None]. *)
Definition stored_key (s : state) : option string :=
  mjoin (session_state s !! "GEMINI_API_KEY").

(** The session state after lines 22-23. *)
Definition initialised (s : state) : gmap string (option string) :=
  if bool_decide (is_Some (session_state s !! "GEMINI_API_KEY"))
  then session_state s
  else <["GEMINI_API_KEY":=None]> (session_state s).

(** Whether the sidebar ends the run: a key typed in while none is stored,
    or the reset button clicked while one is. *)
Definition reruns (w : widgets) (s : state) : bool :=
  if truthy (stored_key s) then reset_clicked w else truthy (Some (gemini_key_input w)).

(** The session state such a run leaves. *)
Definition after_rerun (w : widgets) (s : state) : gmap string (option string) :=
  <["GEMINI_API_KEY":=if truthy (stored_key s) then None else Some (gemini_key_input w)]>
    (session_state s).

(** [medical_agent] as lines 62-71 leave it for the stored key [key]. *)
Definition agent_of (secrets : gmap string string) (key : option string) : option agent :=
  match key with
  | Some k =>
      if truthy (Some k) && bool_decide (is_Some (secrets !! "SERPER_API_KEY"))
      then Some (Agent k "gemini-2.0-flash-exp" None true)
      else None
  | None => None
  end.

(** The exception that ends such a run: the rerun, or the failed lookup of
    [st.experimental_rerun] after a click on the reset button. *)
Definition sidebar_exit (env : environment) (s : state) : exn :=
  if truthy (stored_key s) && negb (has_experimental_rerun env)
  then AttributeError "module 'streamlit' has no attribute 'experimental_rerun'"
  else RerunException.

Definition configured_agent (secrets : gmap string string) (s : state) : option agent :=
  agent_of secrets (stored_key s).

(** The disk as the model call leaves it, or as it found it when there is
    no agent to call. *)
Definition disk_after_model (env : environment) (medical_agent : option agent)
    (file : uploaded) (s : state) : gmap string (list Byte.byte) :=
  match medical_agent with
  | Some a => (agent_run env a query [image_path] (disk_at_call file s)).2
  | None => disk_at_call file s
  end.

(** What lines 116-128 put on the page. *)
Definition upload_prompt : list element :=
  [StTitle (plain "🏥 Medical Imaging Diagnosis Agent");
   StWrite (JStr "Upload a medical image for professional analysis");
   StFileUploader "Upload Medical Image" upload_types].

(** The three elements lines 179-181 add for one result. *)
Definition entry (title link snippet : json) : list element :=
  [StMarkdown [Lit "**["; Val title; Lit "]("; Val link; Lit ")**"];
   StWrite snippet;
   StMarkdown (plain "---")].

(** The entry of a result that is a dict with the three keys. *)
Definition entry_of (result : json) : option (list element) :=
  match result with
  | JObj members =>
      title ← dict_lookup "title" members;
      link ← dict_lookup "link" members;
      snippet ← dict_lookup "snippet" members;
      Some (entry title link snippet)
  | _ => None
  end.

Definition listing (results : list json) : list element :=
  results ≫= λ result, default [] (entry_of result).

Definition literature_header : element :=
  StMarkdown (plain "### 🔗 Relevant Medical Literature").

(** ** Further sample runs *)

(** A fresh session, and the browser's side of the runs below. *)
Definition fresh_state : state := State ∅ ∅ [] [].
Definition typing_key : widgets := Widgets "K1" false None false.
Definition resetting : widgets := Widgets "" true None false.
Definition looking : widgets := Widgets "" false (Some sample_file) false.

(** A DICOM file, which the uploader accepts and PIL does not identify. *)
Definition dicom_file : uploaded := Uploaded "scan.dicom" [x44; x49; x43; x4d].
Definition dicom_trigger : widgets := Widgets "" false (Some dicom_file) true.
Definition env_unreadable : environment :=
  Environment (λ _ _ _ fs, (Returned "", fs)) (λ _ _, found_one)
              (λ _, Raised UnidentifiedImageError) true false.

Definition interrupted : exn := BaseOnly "KeyboardInterrupt".
Definition forbidden : response := Response 403 None.

(** A result without a title. *)
Definition untitled_item : json :=
  JObj [("link", JStr "http://z"); ("snippet", JStr "u")].
Definition found_broken : response :=
  Response 200 (Some (JObj [("items", JArr [one_item; untitled_item; second_item])])).

(** * Proofs *)

(** ** Frame facts: what the rendering steps leave alone *)

Lemma appends_refl s : appends s s.
Proof. repeat split. exists []. by rewrite app_nil_r. Qed.

Lemma appends_trans s1 s2 s3 : appends s1 s2 → appends s2 s3 → appends s1 s3.
Proof.
  intros (Hs & Hf & Hc & els & Hp) (Hs' & Hf' & Hc' & els' & Hp').
  repeat split; try congruence.
  exists (els ++ els'). rewrite Hp', Hp. by rewrite app_assoc.
Qed.

Lemma render_appends el s : appends s (render el s).2.
Proof. repeat split. by exists [el]. Qed.

Lemma bind_appends {A B} (m : script A) (k : A → script B) s :
  appends s (m s).2 → (∀ a s1, appends s1 (k a s1).2) → appends s (bind m k s).2.
Proof.
  intros Hm Hk. unfold bind. destruct (m s) as [[a|e] s1]; simpl in *; [|done].
  eapply appends_trans; [exact Hm|apply Hk].
Qed.

Lemma lift_appends {A} (o : outcome A) s : appends s (lift o s).2.
Proof. apply appends_refl. Qed.

Lemma ret_appends {A} (a : A) s : appends s (ret a s).2.
Proof. apply appends_refl. Qed.

Lemma raise_appends {A} e s : appends s (@raise A e s).2.
Proof. apply appends_refl. Qed.

Ltac appends_tac :=
  unfold mbind, script_bind, mret, script_ret;
  repeat first
    [ apply ret_appends | apply raise_appends | apply lift_appends | apply render_appends
    | apply bind_appends; [|intros ? ?] ].

Lemma render_result_appends result s : appends s (render_result result s).2.
Proof. unfold render_result, st_markdown, st_write. appends_tac. Qed.

Lemma for_each_appends {A} (xs : list A) (body : A → script unit) s :
  (∀ x s1, appends s1 (body x s1).2) → appends s (for_each xs body s).2.
Proof.
  intros Hbody. revert s. induction xs as [|x xs IH]; intros s; simpl.
  - apply appends_refl.
  - apply bind_appends; [apply Hbody|]. intros _ s1. apply IH.
Qed.

Lemma literature_tail_appends results s :
  appends s
    (bind (st_markdown (plain "### 🔗 Relevant Medical Literature"))
       (λ _, bind (lift (py_iter results)) (λ rs, for_each rs render_result)) s).2.
Proof.
  unfold st_markdown. appends_tac.
  apply for_each_appends. intros. apply render_result_appends.
Qed.

Lemma cleanup_removes s :
  cleanup s = (Returned tt,
               State (session_state s) (delete image_path (files s)) (page s) (calls s)).
Proof.
  unfold cleanup, os_path_exists, os_remove, mbind, script_bind, bind.
  destruct (files s !! image_path) as [b|] eqn:E.
  - rewrite bool_decide_eq_true_2 by eauto. rewrite E. reflexivity.
  - rewrite bool_decide_eq_false_2 by (intros [? ?]; congruence).
    unfold mret, script_ret, ret. rewrite delete_id by done. by destruct s.
Qed.

Section Analysis.

Variable env : environment.
Variable secrets : gmap string string.

(** ** The search function, as an equation *)

Lemma google_custom_search_eq q k c n s :
  let params := search_params q k c (default 3 n) in
  google_custom_search env q k c n s =
    (search_result (requests_get env search_url params),
     State (session_state s) (files s) (page s) (calls s ++ [HttpGet search_url params])).
Proof.
  unfold google_custom_search, http_get, raise_for_status, response_json, search_result.
  unfold mbind, script_bind, bind, mret, script_ret, ret, raise, lift. simpl.
  destruct (requests_get env _ _) as [r|e]; [|done].
  destruct (_ && _); [done|]. simpl.
  destruct (json_body r); done.
Qed.

(** The search step leaves the session and the disk alone, appends to the
    page, and makes no call or the one fixed search call. *)
Lemma literature_spec s :
  let s' := (literature env secrets s).2 in
  session_state s' = session_state s ∧ files s' = files s ∧
  (∃ els, page s' = page s ++ els) ∧
  (calls s' = calls s ∨
   ∃ key, secrets !! "SERPER_API_KEY" = Some key ∧ calls s' = calls s ++ [fixed_search key]).
Proof.
  destruct (literature env secrets s) as [r s'] eqn:E. simpl.
  unfold literature, secrets_getitem, fixed_search in *.
  destruct (secrets !! "SERPER_API_KEY") as [key|] eqn:Hkey.
  2:{ injection E as <- <-. split_and!; [done|done| |by left].
      exists []. by rewrite app_nil_r. }
  unfold mbind, script_bind, mret, script_ret in E. unfold bind at 1, ret in E.
  unfold bind at 1 in E.
  rewrite google_custom_search_eq in E.
  destruct (search_result _) as [results|e].
  2:{ injection E as <- <-. simpl. split_and!; [done|done| |right; by exists key].
      exists []. by rewrite app_nil_r. }
  pose proof (literature_tail_appends results
    (State (session_state s) (files s) (page s)
       (calls s ++ [HttpGet search_url
          (search_params "Medical imaging abnormalities similar cases" key
             "custom-search-engine-id" (default 3 None))]))) as Happ.
  rewrite E in Happ. destruct Happ as (Hs & Hf & Hc & els & Hp).
  simpl in *. split_and!; [done|done|by exists els|right; by exists key].
Qed.

(** ** The analysis trigger, case by case *)

Lemma analyze_eq medical_agent file s :
  analyze env secrets medical_agent file s =
    let (r1, s1) := analysis env secrets medical_agent
                      (State (session_state s) (disk_at_call file s) (page s) (calls s)) in
    match r1 with
    | Raised e =>
        if is_Exception e
        then (Returned tt, State (session_state s1) (delete image_path (files s1))
                                 (page s1 ++ [error_message e]) (calls s1))
        else (Raised e, State (session_state s1) (delete image_path (files s1))
                              (page s1) (calls s1))
    | Returned _ =>
        (r1, State (session_state s1) (delete image_path (files s1)) (page s1) (calls s1))
    end.
Proof.
  unfold analyze, write_file, try_except_finally, st_error, render, disk_at_call, error_message.
  unfold mbind, script_bind. unfold bind at 1.
  destruct (analysis _ _ _ _) as [[[]|e] s1]; [|destruct (is_Exception e)];
    by rewrite cleanup_removes.
Qed.

Lemma analysis_no_agent s :
  analysis env secrets None s =
    (Raised (AttributeError "'NoneType' object has no attribute 'run'"), s).
Proof. reflexivity. Qed.

Lemma analysis_model_raises a e fs s :
  agent_run env a query [image_path] (files s) = (Raised e, fs) →
  analysis env secrets (Some a) s =
    (Raised e, State (session_state s) fs (page s)
                     (calls s ++ [ModelRun a query [(image_path, files s !! image_path)]])).
Proof.
  intros Hrun. unfold analysis, run. unfold mbind, script_bind. unfold bind at 1.
  by rewrite Hrun.
Qed.

Lemma analysis_model_returns a t fs s :
  agent_run env a query [image_path] (files s) = (Returned t, fs) →
  analysis env secrets (Some a) s =
    literature env secrets
      (State (session_state s) fs (page s ++ report t)
             (calls s ++ [ModelRun a query [(image_path, files s !! image_path)]])).
Proof.
  intros Hrun. unfold analysis, run, st_markdown, st_caption, render, report.
  unfold mbind, script_bind. unfold bind. rewrite Hrun. simpl.
  by rewrite <- !app_assoc.
Qed.

Lemma disk_at_call_lookup file s :
  disk_at_call file s !! image_path = Some (getbuffer file).
Proof. apply lookup_insert_eq. Qed.

Lemma analyze_no_agent file s :
  analyze env secrets None file s =
    (Returned tt,
     State (session_state s) (delete image_path (disk_at_call file s))
           (page s ++ [error_message (AttributeError "'NoneType' object has no attribute 'run'")])
           (calls s)).
Proof. by rewrite analyze_eq, analysis_no_agent. Qed.

Lemma analyze_model_raises a file e fs s :
  agent_run env a query [image_path] (disk_at_call file s) = (Raised e, fs) →
  analyze env secrets (Some a) file s =
    (if is_Exception e then Returned tt else Raised e,
     State (session_state s) (delete image_path fs)
           (page s ++ (if is_Exception e then [error_message e] else []))
           (calls s ++ [model_call a file])).
Proof.
  intros Hrun. rewrite analyze_eq.
  erewrite analysis_model_raises by exact Hrun. simpl.
  rewrite disk_at_call_lookup. unfold model_call.
  destruct (is_Exception e); [done|]. by rewrite app_nil_r.
Qed.

Lemma analyze_model_returns a file t fs s :
  agent_run env a query [image_path] (disk_at_call file s) = (Returned t, fs) →
  ∃ r els searches,
    analyze env secrets (Some a) file s =
      (r, State (session_state s) (delete image_path fs)
                (page s ++ report t ++ els)
                (calls s ++ model_call a file :: searches)) ∧
    (searches = [] ∨
     ∃ key, secrets !! "SERPER_API_KEY" = Some key ∧ searches = [fixed_search key]).
Proof.
  intros Hrun. rewrite analyze_eq.
  erewrite analysis_model_returns by exact Hrun. simpl.
  rewrite disk_at_call_lookup. fold (model_call a file).
  match goal with |- context [literature env secrets ?s0] =>
    pose proof (literature_spec s0) as Hlit;
    destruct (literature env secrets s0) as [r1 s1] end.
  simpl in Hlit. destruct Hlit as (Hs & Hf & [els Hp] & Hc).
  assert (∃ searches, calls s1 = calls s ++ model_call a file :: searches ∧
            (searches = [] ∨
             ∃ key, secrets !! "SERPER_API_KEY" = Some key ∧ searches = [fixed_search key]))
    as (searches & Hcalls & Hsearches).
  { destruct Hc as [Hc|(key & Hkey & Hc)].
    - exists []. split; [by rewrite Hc|by left].
    - exists [fixed_search key]. split; [by rewrite Hc, <- app_assoc|right; eauto]. }
  rewrite Hs, Hf, Hp, Hcalls, <- !app_assoc.
  destruct r1 as [[]|e]; [|destruct (is_Exception e)].
  - exists (Returned tt), els, searches. by rewrite <- ?app_assoc.
  - exists (Returned tt), (els ++ [error_message e]), searches.
    by rewrite <- ?app_assoc.
  - exists (Raised e), els, searches. by rewrite <- ?app_assoc.
Qed.

End Analysis.

Lemma calls_made_app {A} (m : script A) s new :
  calls (m s).2 = calls s ++ new → calls_made m s = new.
Proof. intros H. unfold calls_made. rewrite H. apply drop_app_length. Qed.

(** Membership in a list written out: one case per element. *)
Ltac in_list H :=
  repeat (apply elem_of_cons in H as [H|H]); [..|by apply elem_of_nil in H].

(** ** The analysis trigger: the claims *)

Section Trigger.

Variable env : environment.
Variable secrets : gmap string string.

(** The calls [analyze] makes, in each of its three cases. *)
Lemma analyze_calls medical_agent file s :
  match medical_agent with
  | None => calls_made (analyze env secrets None file) s = []
  | Some a =>
      match agent_run env a query [image_path] (disk_at_call file s) with
      | (Raised _, _) => calls_made (analyze env secrets (Some a) file) s = [model_call a file]
      | (Returned _, _) =>
          calls_made (analyze env secrets (Some a) file) s = [model_call a file] ∨
          ∃ key, secrets !! "SERPER_API_KEY" = Some key ∧
                 calls_made (analyze env secrets (Some a) file) s =
                   [model_call a file; fixed_search key]
      end
  end.
Proof.
  destruct medical_agent as [a|].
  - destruct (agent_run env a query [image_path] (disk_at_call file s)) as [[t|e] fs] eqn:Hrun.
    + destruct (analyze_model_returns env secrets a file t fs s Hrun)
        as (r & els & searches & Heq & [->|(key & Hkey & ->)]).
      * left. apply calls_made_app. by rewrite Heq.
      * right. exists key. split; [done|]. apply calls_made_app. by rewrite Heq.
    + apply calls_made_app. by rewrite (analyze_model_raises env secrets a file e fs s Hrun).
  - apply calls_made_app. rewrite analyze_no_agent. simpl. by rewrite app_nil_r.
Qed.

(** C1.  The trigger writes the uploaded bytes to "temp_medical_image.png"
    before the model call and leaves no file there when it returns, whatever
    the model call and the search do.  With an agent, the first call of the
    trigger is the model call, made with the prompt and that one path on a
    disk where the path holds the uploaded bytes, and the disk the trigger
    leaves is the one that call left, less the file.  Without an agent no
    call is made, and the file is gone all the same. *)
Theorem temp_file_written_then_removed medical_agent file s :
  files (analyze env secrets medical_agent file s).2 !! image_path = None ∧
  (∀ a, medical_agent = Some a →
        ∃ rest,
          calls_made (analyze env secrets medical_agent file) s =
            ModelRun a query [("temp_medical_image.png", Some (getbuffer file))] :: rest ∧
          files (analyze env secrets medical_agent file s).2 =
            delete "temp_medical_image.png"
              (agent_run env a query ["temp_medical_image.png"]
                 (<["temp_medical_image.png":=getbuffer file]> (files s))).2) ∧
  (medical_agent = None →
   calls_made (analyze env secrets medical_agent file) s = [] ∧
   files (analyze env secrets medical_agent file s).2 =
     delete "temp_medical_image.png" (files s)) ∧
  ∀ a prompt images,
    ModelRun a prompt images ∈ calls_made (analyze env secrets medical_agent file) s →
    images = [("temp_medical_image.png", Some (getbuffer file))].
Proof.
  pose proof (analyze_calls medical_agent file s) as Hcalls.
  split_and!.
  - destruct medical_agent as [a|].
    + destruct (agent_run env a query [image_path] (disk_at_call file s)) as [[t|e] fs] eqn:Hrun.
      * destruct (analyze_model_returns env secrets a file t fs s Hrun)
          as (r & els & searches & -> & _). apply lookup_delete_eq.
      * rewrite (analyze_model_raises env secrets a file e fs s Hrun). apply lookup_delete_eq.
    + rewrite analyze_no_agent. apply lookup_delete_eq.
  - intros a ->. fold image_path. fold (disk_at_call file s).
    destruct (agent_run env a query [image_path] (disk_at_call file s)) as [[t|e] fs] eqn:Hrun.
    + destruct (analyze_model_returns env secrets a file t fs s Hrun)
        as (r & els & searches & Heq & _).
      destruct Hcalls as [Hc|(key & _ & Hc)]; rewrite Hc, Heq; by eexists.
    + rewrite Hcalls, (analyze_model_raises env secrets a file e fs s Hrun). by eexists.
  - intros ->. split; [done|]. rewrite analyze_no_agent. simpl.
    fold image_path. unfold disk_at_call. by rewrite delete_insert_eq.
  - intros a prompt images Hin.
    destruct medical_agent as [a'|]; [|rewrite Hcalls in Hin; by apply elem_of_nil in Hin].
    destruct (agent_run env a' query [image_path] (disk_at_call file s)) as [[t|e] fs].
    + destruct Hcalls as [Hc|(key & _ & Hc)]; rewrite Hc in Hin;
        unfold model_call, fixed_search in Hin; in_list Hin;
        first [discriminate | by injection Hin as -> -> ->].
    + rewrite Hcalls in Hin. unfold model_call in Hin. in_list Hin.
      by injection Hin as -> -> ->.
Qed.

(** C5.  An exception of the model call (an instance of [Exception], as the
    auth, quota, network and timeout errors of the client are) does not leave
    the trigger: the trigger returns normally, adds exactly one element to
    the page, the error message carrying that exception, and keeps the
    session state, so the next run of the script can trigger again. *)
Theorem model_failure_is_reported a file s e fs :
  agent_run env a query [image_path] (disk_at_call file s) = (Raised e, fs) →
  is_Exception e = true →
  analyze env secrets (Some a) file s =
    (Returned tt,
     State (session_state s) (delete image_path fs)
           (page s ++ [StError [Lit "Analysis error: "; Exn e]])
           (calls s ++ [model_call a file])).
Proof.
  intros Hrun Hexc. rewrite (analyze_model_raises env secrets a file e fs s Hrun).
  by rewrite Hexc.
Qed.

(** C6.  When the model call raises, the trigger makes that call and no
    other; and whenever the trigger makes a search request, the model call
    came first and had returned. *)
Theorem search_only_after_model_success medical_agent file s :
  (∀ a e fs,
     medical_agent = Some a →
     agent_run env a query [image_path] (disk_at_call file s) = (Raised e, fs) →
     calls_made (analyze env secrets medical_agent file) s = [model_call a file]) ∧
  (∀ url params,
     HttpGet url params ∈ calls_made (analyze env secrets medical_agent file) s →
     ∃ a t fs,
       medical_agent = Some a ∧
       agent_run env a query [image_path] (disk_at_call file s) = (Returned t, fs) ∧
       calls_made (analyze env secrets medical_agent file) s =
         [model_call a file; HttpGet url params]).
Proof.
  pose proof (analyze_calls medical_agent file s) as Hcalls. split.
  - intros a e fs -> Hrun. by rewrite Hrun in Hcalls.
  - intros url params Hin.
    destruct medical_agent as [a|]; [|rewrite Hcalls in Hin; by apply elem_of_nil in Hin].
    destruct (agent_run env a query [image_path] (disk_at_call file s))
      as [[t|e] fs] eqn:Hrun.
    + exists a, t, fs. split_and!; [done..|].
      destruct Hcalls as [Hc|(key & _ & Hc)]; rewrite Hc in Hin |- *;
        unfold model_call, fixed_search in Hin; in_list Hin; try discriminate.
      by rewrite Hin.
    + rewrite Hcalls in Hin. unfold model_call in Hin. in_list Hin. discriminate.
Qed.

(** C9.  When the model call returns the text [t], the page gets the report
    with [t] itself as the body of a markdown element, whatever the search
    does afterwards. *)
Theorem report_rendered_verbatim a file s t fs :
  agent_run env a query [image_path] (disk_at_call file s) = (Returned t, fs) →
  ∃ els,
    page (analyze env secrets (Some a) file s).2 =
      page s ++
      [StMarkdown [Lit "### 📋 Analysis Results"]; StMarkdown [Lit "---"];
       StMarkdown [Lit t]; StMarkdown [Lit "---"];
       StCaption [Lit ("Note: This analysis is generated by AI and should be reviewed by " +:+
                       "a qualified healthcare professional.")]] ++ els.
Proof.
  intros Hrun.
  destruct (analyze_model_returns env secrets a file t fs s Hrun)
    as (r & els & searches & -> & _).
  by exists els.
Qed.

(** C10.  Every search request of the trigger goes to the search endpoint
    with the query "Medical imaging abnormalities similar cases", the engine
    identifier "custom-search-engine-id", 3 results asked for, and the key of
    the secrets file: nothing of it comes from the report, the image or the
    user. *)
Theorem search_arguments_fixed medical_agent file s url params :
  HttpGet url params ∈ calls_made (analyze env secrets medical_agent file) s →
  url = "https://www.googleapis.com/customsearch/v1" ∧
  ∃ key,
    secrets !! "SERPER_API_KEY" = Some key ∧
    params = [("q", PStr "Medical imaging abnormalities similar cases");
              ("key", PStr key);
              ("cx", PStr "custom-search-engine-id");
              ("num", PInt 3)].
Proof.
  intros Hin. pose proof (analyze_calls medical_agent file s) as Hcalls.
  destruct medical_agent as [a|]; [|rewrite Hcalls in Hin; by apply elem_of_nil in Hin].
  destruct (agent_run env a query [image_path] (disk_at_call file s)) as [[t|e] fs].
  - destruct Hcalls as [Hc|(key & Hkey & Hc)]; rewrite Hc in Hin;
      unfold model_call, fixed_search in Hin; in_list Hin; try discriminate.
    injection Hin as -> ->. split; [done|]. by exists key.
  - rewrite Hcalls in Hin. unfold model_call in Hin. in_list Hin. discriminate.
Qed.
End Trigger.

(** A run of the trigger in which the model call times out. *)
Lemma model_failure_witness :
  analyze (env_of (Raised timed_out) found_one) sample_secrets (Some sample_agent)
      sample_file sample_state =
    (Returned tt,
     State (session_state sample_state)
           (delete image_path (disk_at_call sample_file sample_state))
           (page sample_state ++ [StError [Lit "Analysis error: "; Exn timed_out]])
           (calls sample_state ++ [model_call sample_agent sample_file])).
Proof.
  apply (model_failure_is_reported (env_of (Raised timed_out) found_one) sample_secrets
           sample_agent sample_file sample_state timed_out
           (disk_at_call sample_file sample_state)); reflexivity.
Defined.

(** A run on a model that copies the file it is given: the copy holds the
    uploaded bytes, and the temporary file is gone. *)
Lemma temp_file_witness :
  ∃ rest,
    calls_made (analyze env_copying sample_secrets (Some sample_agent) sample_file)
      sample_state =
      ModelRun sample_agent query [("temp_medical_image.png", Some (getbuffer sample_file))]
        :: rest ∧
    files (analyze env_copying sample_secrets (Some sample_agent) sample_file
             sample_state).2 =
      delete "temp_medical_image.png"
        (agent_run env_copying sample_agent query ["temp_medical_image.png"]
           (<["temp_medical_image.png":=getbuffer sample_file]> (files sample_state))).2.
Proof.
  exact (proj1 (proj2 (temp_file_written_then_removed env_copying sample_secrets
                         (Some sample_agent) sample_file sample_state))
           sample_agent eq_refl).
Defined.

Lemma search_after_model_witness :
  ∃ a t fs,
    Some sample_agent = Some a ∧
    agent_run (env_of (Returned "### Findings...") found_one) a query [image_path]
      (disk_at_call sample_file sample_state) = (Returned t, fs) ∧
    calls_made (analyze (env_of (Returned "### Findings...") found_one) sample_secrets
                  (Some sample_agent) sample_file) sample_state =
      [model_call a sample_file; fixed_search "S1"].
Proof.
  apply (proj2 (search_only_after_model_success (env_of (Returned "### Findings...") found_one)
                  sample_secrets (Some sample_agent) sample_file sample_state)).
  vm_compute. apply list_elem_of_further, list_elem_of_here.
Defined.

Lemma report_witness :
  ∃ els,
    page (analyze (env_of (Returned "### Findings...") found_one) sample_secrets
            (Some sample_agent) sample_file sample_state).2 =
      page sample_state ++
      [StMarkdown [Lit "### 📋 Analysis Results"]; StMarkdown [Lit "---"];
       StMarkdown [Lit "### Findings..."]; StMarkdown [Lit "---"];
       StCaption [Lit ("Note: This analysis is generated by AI and should be reviewed by " +:+
                       "a qualified healthcare professional.")]] ++ els.
Proof.
  apply (report_rendered_verbatim (env_of (Returned "### Findings...") found_one)
           sample_secrets sample_agent sample_file sample_state "### Findings..."
           (disk_at_call sample_file sample_state)).
  reflexivity.
Defined.

Lemma search_arguments_witness :
  search_url = "https://www.googleapis.com/customsearch/v1" ∧
  ∃ key,
    sample_secrets !! "SERPER_API_KEY" = Some key ∧
    search_params "Medical imaging abnormalities similar cases" "S1"
      "custom-search-engine-id" 3 =
      [("q", PStr "Medical imaging abnormalities similar cases");
       ("key", PStr key);
       ("cx", PStr "custom-search-engine-id");
       ("num", PInt 3)].
Proof.
  apply (search_arguments_fixed (env_of (Returned "### Findings...") found_one)
           sample_secrets (Some sample_agent) sample_file sample_state).
  vm_compute. apply list_elem_of_further, list_elem_of_here.
Defined.

(** ** The search function *)

(** C2, as stated, fails: [raise_for_status] raises for a 4xx or a 5xx only,
    so a response with status 300 and the body [{}] is read like a success
    and the call returns the empty list. *)
Lemma search_returns_on_status_300 : ¬ search_raises_on_every_non_2xx.
Proof.
  intros Hclaim.
  destruct (Hclaim (env_of (Returned "") (Returned (Response 300 (Some (JObj [])))))
              "q" "k" "cx" None sample_state (Response 300 (Some (JObj [])))
              eq_refl) as [e He].
  - simpl. lia.
  - discriminate He.
Qed.

(** C2, amended.  When the response has a client-error or server-error
    status (400 to 599), the search call raises [HTTPError] and returns no
    result at all.  A response with any other status is read the same way
    whatever the status, a 2xx or not: the call gives what the body gives,
    [JSONDecodeError] when it is not JSON and [body.get("items", [])]
    otherwise.  In both cases the request is the only thing left behind. *)
Theorem search_raises_on_error_status env q k c n s r :
  requests_get env search_url (search_params q k c (default 3 n)) = Returned r →
  let sent := State (session_state s) (files s) (page s)
                (calls s ++ [HttpGet search_url (search_params q k c (default 3 n))]) in
  (400 ≤ status_code r < 600 →
   google_custom_search env q k c n s = (Raised (HTTPError (status_code r)), sent)) ∧
  (¬ (400 ≤ status_code r < 600) →
   google_custom_search env q k c n s =
     (match json_body r with
      | None => Raised JSONDecodeError
      | Some body => py_get body "items" (JArr [])
      end, sent)).
Proof.
  intros Hget. cbv zeta. rewrite google_custom_search_eq. cbv zeta.
  rewrite Hget. unfold search_result. split.
  - intros [Hlo Hhi]. apply Z.leb_le in Hlo. apply Z.ltb_lt in Hhi. by rewrite Hlo, Hhi.
  - intros Hok.
    replace ((400 <=? status_code r) && (status_code r <? 600)) with false; [done|].
    symmetry. apply andb_false_iff.
    destruct (Z.leb_spec 400 (status_code r)); [right; apply Z.ltb_ge; lia|by left].
Qed.

Lemma search_403_witness :
  google_custom_search (env_of (Returned "") (Returned (Response 403 None)))
      "Medical imaging abnormalities similar cases" "S1" "custom-search-engine-id" None
      sample_state =
    (Raised (HTTPError 403),
     State (session_state sample_state) (files sample_state) (page sample_state)
           (calls sample_state ++ [fixed_search "S1"])).
Proof.
  apply (proj1 (search_raises_on_error_status
                  (env_of (Returned "") (Returned (Response 403 None)))
                  "Medical imaging abnormalities similar cases" "S1"
                  "custom-search-engine-id" None sample_state (Response 403 None) eq_refl)).
  simpl. lia.
Defined.

(** C3.  On a 2xx response whose body is a JSON object, the search call
    returns the value of its "items" member as it is, so an array comes back
    with the same items in the same order, and the empty list when the
    object has no such member. *)
Theorem search_returns_items env q k c n s r members :
  requests_get env search_url (search_params q k c (default 3 n)) = Returned r →
  200 ≤ status_code r < 300 →
  json_body r = Some (JObj members) →
  (∀ items, dict_lookup "items" members = Some (JArr items) →
            (google_custom_search env q k c n s).1 = Returned (JArr items)) ∧
  (dict_lookup "items" members = None →
   (google_custom_search env q k c n s).1 = Returned (JArr [])).
Proof.
  intros Hget [Hlo Hhi] Hbody. rewrite google_custom_search_eq. simpl.
  rewrite Hget. simpl.
  replace (400 <=? status_code r) with false by (symmetry; apply Z.leb_gt; lia).
  simpl. rewrite Hbody. simpl.
  split; [intros items Hitems|intros Hitems]; by rewrite Hitems.
Qed.

Lemma search_one_item_witness :
  (google_custom_search (env_of (Returned "") found_one) "q" "k" "cx" None sample_state).1 =
    Returned (JArr [JObj [("title", JStr "A"); ("link", JStr "http://x");
                          ("snippet", JStr "s")]]).
Proof.
  apply (search_returns_items (env_of (Returned "") found_one) "q" "k" "cx" None
           sample_state (Response 200 (Some one_item_body))
           [("items", JArr [one_item])]).
  - reflexivity.
  - simpl. lia.
  - reflexivity.
  - reflexivity.
Defined.

(** ** The agent *)

(** C4.  [medical_agent] is an agent exactly when the session holds a
    non-empty model key and the secrets hold the search key; the agent then
    carries that model key, and otherwise [medical_agent] stays [None]
    (the session attribute exists from line 23 on). *)
Theorem agent_constructed_iff_both_keys secrets s :
  let r := (init_medical_agent secrets s).1 in
  let both_keys :=
    (∃ k, session_state s !! "GEMINI_API_KEY" = Some (Some k) ∧ k ≠ "") ∧
    is_Some (secrets !! "SERPER_API_KEY") in
  ((∃ a, r = Returned (Some a)) ↔ both_keys) ∧
  (∀ a, r = Returned (Some a) →
        session_state s !! "GEMINI_API_KEY" = Some (Some (model_api_key a))) ∧
  (is_Some (session_state s !! "GEMINI_API_KEY") → ¬ both_keys → r = Returned None).
Proof.
  unfold init_medical_agent, session_getattr, secrets_contains.
  unfold mbind, script_bind, bind, mret, script_ret, ret.
  destruct (session_state s !! "GEMINI_API_KEY") as [[k|]|] eqn:Hkey; simpl.
  - destruct (String.eqb_spec k "") as [->|Hk]; simpl.
    + split_and!.
      * split; [intros [a Ha]; discriminate|intros [(k & [= <-] & Hk) _]; done].
      * intros a [=].
      * done.
    + destruct (decide (is_Some (secrets !! "SERPER_API_KEY"))) as [Hs|Hs].
      * rewrite bool_decide_eq_true_2 by done. simpl. split_and!.
        -- split; [intros _; split; [by exists k|done]|intros _; by eexists].
        -- by intros a [= <-].
        -- intros _ Hnot. destruct Hnot. split; [by exists k|done].
      * rewrite bool_decide_eq_false_2 by done. simpl. split_and!.
        -- split; [intros [a Ha]; discriminate|intros [_ Hs']; done].
        -- intros a [=].
        -- done.
  - split_and!.
    + split; [intros [a Ha]; discriminate|intros [(k & [=] & _) _]].
    + intros a [=].
    + done.
  - split_and!.
    + split; [intros [a Ha]; discriminate|intros [(k & [=] & _) _]].
    + intros a [=].
    + intros [? [=]].
Qed.

Lemma agent_witness :
  ∃ a, (init_medical_agent sample_secrets sample_state).1 = Returned (Some a).
Proof.
  apply (proj1 (agent_constructed_iff_both_keys sample_secrets sample_state)).
  split; [exists "K1"; split; [reflexivity|discriminate]|by eexists].
Defined.

(** ** Binary64 arithmetic *)

Module Binary64.

(** *** Digits *)

Lemma digits2_pos_size p : digits2_pos p = Pos.size p.
Proof. induction p; simpl; congruence. Qed.

Lemma digits_bounds p :
  2 ^ (Z.pos (digits2_pos p) - 1) ≤ Z.pos p < 2 ^ Z.pos (digits2_pos p).
Proof.
  rewrite digits2_pos_size. split.
  - pose proof (Pos.size_le p) as H.
    apply Pos2Z.pos_le_pos in H. rewrite Pos2Z.inj_pow in H.
    replace (Z.pos (Pos.size p)) with (Z.succ (Z.pos (Pos.size p) - 1)) in H by lia.
    rewrite Z.pow_succ_r in H by lia. lia.
  - pose proof (Pos.size_gt p) as H.
    apply Pos2Z.pos_lt_pos in H. by rewrite Pos2Z.inj_pow in H.
Qed.

Lemma digits_unique p d :
  2 ^ (d - 1) ≤ Z.pos p < 2 ^ d → Z.pos (digits2_pos p) = d.
Proof.
  intros [Hlo Hhi]. pose proof (digits_bounds p) as [Hlo' Hhi'].
  assert (0 < d).
  { destruct (Z.lt_trichotomy d 0) as [?|[->|?]]; [|simpl in Hhi; lia|done].
    rewrite Z.pow_neg_r in Hhi by done. lia. }
  destruct (Z.lt_trichotomy (Z.pos (digits2_pos p)) d) as [Hlt|[Heq|Hgt]]; [|done|].
  - assert (2 ^ Z.pos (digits2_pos p) ≤ 2 ^ (d - 1)) by (apply Z.pow_le_mono_r; lia). lia.
  - assert (2 ^ d ≤ 2 ^ (Z.pos (digits2_pos p) - 1)) by (apply Z.pow_le_mono_r; lia). lia.
Qed.

(** *** Rounding a 53- or 54-bit quotient *)

Lemma fexp_normal e : emin64 + 53 ≤ e → fexp prec emax e = e - 53.
Proof. intros. unfold fexp, SpecFloat.emin, prec, emax. lia. Qed.

Lemma loc_of_shr_record_of_loc m l : loc_of_shr_record (shr_record_of_loc m l) = l.
Proof. by destruct l as [|[]]. Qed.

Lemma shr_m_shr_record_of_loc m l : shr_m (shr_record_of_loc m l) = m.
Proof. by destruct l as [|[]]. Qed.

Lemma shr_fexp_53 m e l :
  2 ^ 52 ≤ m < 2 ^ 53 → emin64 ≤ e →
  shr_fexp prec emax m e l = (shr_record_of_loc m l, e).
Proof.
  intros Hm He. unfold shr_fexp.
  destruct m as [|p|p]; [lia| |lia].
  simpl Zdigits2. rewrite (digits_unique p 53) by (simpl; lia).
  rewrite fexp_normal by lia.
  by replace (53 + e - 53 - e) with 0 by lia.
Qed.

Lemma shr_fexp_54 m e l :
  2 ^ 53 ≤ m < 2 ^ 54 → emin64 ≤ e + 1 →
  shr_fexp prec emax m e l = (shr_1 (shr_record_of_loc m l), e + 1).
Proof.
  intros Hm He. unfold shr_fexp.
  destruct m as [|p|p]; [lia| |lia].
  simpl Zdigits2. rewrite (digits_unique p 54) by (simpl; lia).
  rewrite fexp_normal by lia.
  by replace (54 + e - 53 - e) with 1 by lia.
Qed.

Lemma binary_round_aux_tail s m e :
  2 ^ 52 ≤ m ≤ 2 ^ 53 → emin64 ≤ e ≤ 970 →
  (let '(mrs, e') := shr_fexp prec emax m e loc_Exact in
   match shr_m mrs with
   | Z0 => S754_zero s
   | Zpos p => if e' <=? emax - prec then S754_finite s p e' else S754_infinity s
   | Zneg _ => S754_nan
   end) = renormalise s m e.
Proof.
  intros Hm He. unfold renormalise.
  destruct (Z.ltb_spec m (2 ^ 53)) as [Hlt|Hge].
  - rewrite shr_fexp_53 by lia. simpl shr_m.
    destruct m as [|p|p]; [lia| |lia].
    rewrite Pos2Z.id.
    replace (e <=? emax - prec) with true; [done|].
    symmetry. apply Z.leb_le. unfold emax, prec. lia.
  - assert (m = 2 ^ 53) as -> by lia.
    rewrite shr_fexp_54 by lia.
    replace (e + 1 <=? emax - prec) with true; [done|].
    symmetry. apply Z.leb_le. unfold emax, prec. lia.
Qed.

Lemma binary_round_aux_53 s m e l :
  2 ^ 52 ≤ m < 2 ^ 53 → emin64 ≤ e ≤ 970 →
  binary_round_aux prec emax s m e l = renormalise s (round_nearest_even m l) e.
Proof.
  intros Hm He. unfold binary_round_aux.
  rewrite shr_fexp_53 by lia.
  rewrite loc_of_shr_record_of_loc, shr_m_shr_record_of_loc.
  apply binary_round_aux_tail; [|done].
  unfold round_nearest_even. destruct l as [|[]]; try destruct (Z.even m); lia.
Qed.

Lemma shr_1_halved m l :
  0 < m →
  let mrs := shr_1 (shr_record_of_loc m l) in
  (shr_m mrs, loc_of_shr_record mrs) = halved m l.
Proof.
  intros Hm. unfold halved.
  destruct m as [|p|p]; [lia| |lia].
  destruct p as [p|p|]; destruct l as [|[]];
    cbn [shr_1 shr_record_of_loc shr_m loc_of_shr_record orb Z.odd fst snd];
    f_equal; try reflexivity.
  all: first [rewrite Pos2Z.inj_xI; apply Z.div_unique with 1; lia
             |rewrite Pos2Z.inj_xO; apply Z.div_unique with 0; lia].
Qed.

Lemma binary_round_aux_54 s m e l :
  2 ^ 53 ≤ m < 2 ^ 54 → emin64 ≤ e + 1 ≤ 970 →
  binary_round_aux prec emax s m e l =
    renormalise s (round_nearest_even (halved m l).1 (halved m l).2) (e + 1).
Proof.
  intros Hm He. unfold binary_round_aux.
  rewrite shr_fexp_54 by lia.
  pose proof (shr_1_halved m l ltac:(lia)) as Hh. simpl in Hh.
  injection Hh as -> ->.
  apply binary_round_aux_tail; [|done].
  assert (2 ^ 52 ≤ m / 2 < 2 ^ 53).
  { split; [apply Z.div_le_lower_bound; lia|apply Z.div_lt_upper_bound; lia]. }
  unfold halved, round_nearest_even. simpl.
  destruct (Z.odd m), l as [|[]]; try destruct (Z.even (m / 2)); lia.
Qed.

(** *** Division of two normal numbers *)

Lemma new_location_located d r : 0 ≤ r < d → located (new_location d r) r d.
Proof.
  intros Hr. unfold new_location, new_location_even, new_location_odd.
  destruct (Z.even d) eqn:Hd.
  - destruct (Z.eqb_spec r 0) as [->|Hr0]; [done|].
    destruct (Z.compare_spec (2 * r) d); simpl; lia.
  - destruct (Z.eqb_spec r 0) as [->|Hr0]; [done|].
    assert (Z.odd d = true) as Hodd by (by rewrite <- Z.negb_even, Hd).
    apply Z.odd_spec in Hodd as [d' ->].
    destruct (Z.compare_spec (2 * r + 1) (2 * d' + 1)); simpl; lia.
Qed.

(** Rounding the quotient [q] of [n] by [d], given the location of the
    remainder: the result is within half a unit of [n / d]. *)
Lemma round_nearest_even_error n d q r l :
  0 < d → n = d * q + r → 0 ≤ r < d → located l r d →
  let m := round_nearest_even q l in
  q ≤ m ≤ q + 1 ∧ 2 * Z.abs (m * d - n) ≤ d.
Proof.
  intros Hd -> Hr Hl. unfold round_nearest_even.
  destruct l as [|[]]; simpl in Hl; try destruct (Z.even q); split; nia.
Qed.

(** The same after one bit of the quotient has been shifted out: within one
    unit of [n / d], counted in halves. *)
Lemma round_halved_error n d q r l :
  0 < d → n = d * q + r → 0 ≤ r < d → 0 ≤ q → located l r d →
  let m := round_nearest_even (halved q l).1 (halved q l).2 in
  q / 2 ≤ m ≤ q / 2 + 1 ∧ Z.abs (m * 2 * d - n) ≤ d.
Proof.
  intros Hd -> Hr Hq Hl. unfold halved, round_nearest_even. simpl.
  pose proof (Z.div_mod q 2 ltac:(lia)) as Hdiv.
  pose proof (Zmod_odd q) as Hodd.
  destruct (Z.odd q); destruct l as [|[]]; simpl in Hl;
    try destruct (Z.even (q / 2)); split; nia.
Qed.

Lemma renormalise_finite s m e :
  2 ^ 52 ≤ m ≤ 2 ^ 53 →
  ∃ mz k, renormalise s m e = S754_finite s mz (e + k) ∧
          0 ≤ k ≤ 1 ∧ 2 ^ 52 ≤ Z.pos mz < 2 ^ 53 ∧ Z.pos mz * 2 ^ k = m.
Proof.
  intros Hm. unfold renormalise. destruct (Z.ltb_spec m (2 ^ 53)).
  - exists (Z.to_pos m), 0. rewrite Z.add_0_r, Z2Pos.id by lia.
    split_and!; [done|lia..].
  - exists (Z.to_pos (2 ^ 52)), 1. rewrite Z2Pos.id by lia.
    split_and!; [done|lia..].
Qed.

(** The quotient of two positive normal numbers, far from overflow and
    underflow: a normal number within half a unit in the last place of the
    exact quotient.  [k] is the number of bits by which the 53-bit result
    stands above the exponent [e1 - e2 - 53]. *)
Lemma SF64div_normal m1 e1 m2 e2 :
  2 ^ 52 ≤ Z.pos m1 < 2 ^ 53 → 2 ^ 52 ≤ Z.pos m2 < 2 ^ 53 →
  -900 ≤ e1 - e2 ≤ 900 →
  ∃ mz k,
    SF64div (S754_finite false m1 e1) (S754_finite false m2 e2) =
      S754_finite false mz (e1 - e2 - 53 + k) ∧
    0 ≤ k ≤ 2 ∧ 2 ^ 52 ≤ Z.pos mz < 2 ^ 53 ∧
    2 * Z.abs (Z.pos mz * 2 ^ k * Z.pos m2 - Z.pos m1 * 2 ^ 53) ≤ 2 ^ k * Z.pos m2.
Proof.
  intros Hm1 Hm2 He. unfold SF64div, SFdiv, SFdiv_core_binary.
  cbn [Zdigits2 xorb].
  rewrite (digits_unique m1 53), (digits_unique m2 53) by (simpl; lia).
  rewrite fexp_normal by lia.
  replace (53 + e1 - (53 + e2) - 53) with (e1 - e2 - 53) by lia.
  rewrite Z.min_l by lia.
  replace (e1 - e2 - (e1 - e2 - 53)) with 53 by lia.
  rewrite Z.shiftl_mul_pow2 by lia.
  pose proof (Z_div_mod (Z.pos m1 * 2 ^ 53) (Z.pos m2) ltac:(lia)) as Hdiv.
  destruct (Z.div_eucl (Z.pos m1 * 2 ^ 53) (Z.pos m2)) as [q r].
  destruct Hdiv as [Hn Hr].
  pose proof (new_location_located (Z.pos m2) r Hr) as Hloc.
  assert (2 ^ 52 ≤ q < 2 ^ 54) as Hq.
  { assert (q = Z.pos m1 * 2 ^ 53 / Z.pos m2) as -> by (apply Z.div_unique with r; lia).
    split; [apply Z.div_le_lower_bound; lia|apply Z.div_lt_upper_bound; lia]. }
  destruct (Z.ltb_spec q (2 ^ 53)) as [Hq53|Hq54].
  - rewrite binary_round_aux_53 by lia.
    destruct (round_nearest_even_error (Z.pos m1 * 2 ^ 53) (Z.pos m2) q r _
                (Pos2Z.pos_is_pos m2) Hn Hr Hloc) as [Hm Herr].
    destruct (renormalise_finite false (round_nearest_even q (new_location (Z.pos m2) r))
                (e1 - e2 - 53) ltac:(lia)) as (mz & k & -> & Hk & Hmz & Hval).
    exists mz, k. split_and!; [done|lia|lia|lia|lia|].
    rewrite Hval. assert (1 ≤ 2 ^ k) by (apply Z.pow_le_mono_r with (b := 0); lia). nia.
  - rewrite binary_round_aux_54 by lia.
    destruct (round_halved_error (Z.pos m1 * 2 ^ 53) (Z.pos m2) q r _
                (Pos2Z.pos_is_pos m2) Hn Hr ltac:(lia) Hloc) as [Hm Herr].
    assert (2 ^ 52 ≤ q / 2 < 2 ^ 53).
    { split; [apply Z.div_le_lower_bound; lia|apply Z.div_lt_upper_bound; lia]. }
    destruct (renormalise_finite false
                (round_nearest_even (halved q (new_location (Z.pos m2) r)).1
                   (halved q (new_location (Z.pos m2) r)).2)
                (e1 - e2 - 53 + 1) ltac:(lia)) as (mz & k & -> & Hk & Hmz & Hval).
    exists mz, (1 + k). split_and!; [f_equal; lia|lia|lia|lia|lia|].
    rewrite Z.pow_add_r by lia. change (2 ^ 1) with 2.
    assert (1 ≤ 2 ^ k) by (apply Z.pow_le_mono_r with (b := 0); lia). nia.
Qed.

(** *** Integers as floats *)

(** [float(n)] for an int below 2^53 is [n] itself, with a 53-bit mantissa. *)
Lemma of_uint63_exact n :
  0 < n < 2 ^ 53 →
  ∃ m e, Prim2SF (of_uint63 (Uint63.of_Z n)) = S754_finite false m e ∧
         2 ^ 52 ≤ Z.pos m < 2 ^ 53 ∧ -52 ≤ e ≤ 0 ∧ Z.pos m = n * 2 ^ (- e).
Proof.
  intros Hn. rewrite of_uint63_spec, Uint63.of_Z_spec.
  rewrite Z.mod_small by (change wB with (2 ^ 63); lia).
  destruct n as [|p|p]; [lia| |lia].
  unfold binary_normalize, binary_round.
  pose proof (digits_bounds p) as Hd.
  set (d := Z.pos (digits2_pos p)) in *.
  assert (1 ≤ d ≤ 53) as Hd53.
  { split; [lia|].
    destruct (Z.le_gt_cases d 53) as [|Hgt]; [done|].
    assert (2 ^ 53 ≤ 2 ^ (d - 1)) by (apply Z.pow_le_mono_r; lia). lia. }
  assert (fexp prec emax (d + 0) = d - 53) as ->.
  { unfold fexp, SpecFloat.emin, prec, emax. lia. }
  unfold shl_align.
  destruct (d - 53 - 0) as [|s|s] eqn:Hs; [|lia|].
  - assert (d = 53) as Hd' by lia. rewrite Hd' in *.
    rewrite binary_round_aux_53 by (simpl in *; lia).
    unfold round_nearest_even, renormalise.
    replace (Z.pos p <? 2 ^ 53) with true by (symmetry; apply Z.ltb_lt; lia).
    exists p, 0. rewrite Pos2Z.id. simpl in *. split_and!; [done|lia..].
  - fold (shift_pos s p).
    assert (Z.pos (shift_pos s p) = Z.pos p * 2 ^ Z.pos s) as Hshift.
    { rewrite shift_pos_correct. change (Z.pow_pos 2 s) with (2 ^ Z.pos s). lia. }
    assert (Z.pos s = 53 - d) as Hs' by lia.
    assert (2 ^ 52 ≤ Z.pos (shift_pos s p) < 2 ^ 53) as Hm.
    { rewrite Hshift, Hs'. split.
      - replace 52 with ((d - 1) + (53 - d)) by lia.
        rewrite Z.pow_add_r by lia. apply Z.mul_le_mono_nonneg_r; [lia|tauto].
      - replace 53 with (d + (53 - d)) at 2 by lia.
        rewrite Z.pow_add_r by lia. apply Z.mul_lt_mono_pos_r; [lia|tauto]. }
    rewrite binary_round_aux_53 by lia.
    unfold round_nearest_even, renormalise.
    replace (Z.pos (shift_pos s p) <? 2 ^ 53) with true by (symmetry; apply Z.ltb_lt; lia).
    exists (shift_pos s p), (d - 53). rewrite Pos2Z.id.
    split_and!; [done|lia|lia|lia|lia|].
    rewrite Hshift. f_equal. f_equal. lia.
Qed.

End Binary64.

(** ** The display copy *)

Lemma abs_lt_of_scaled D T F : 0 < F → Z.abs (D * F) < T * F → Z.abs D < T.
Proof.
  intros HF H. rewrite Z.abs_mul, (Z.abs_eq F) in H by lia.
  apply Z.mul_lt_mono_pos_r in H; lia.
Qed.

Lemma scale_bound w c : 0 < w < 2 ^ 31 → 2 ^ 52 ≤ w * c → 2 ^ 21 < c.
Proof.
  intros Hw Hc. destruct (Z.le_gt_cases c (2 ^ 21)) as [Hle|]; [|lia].
  assert (w * c ≤ w * 2 ^ 21) by (apply Z.mul_le_mono_nonneg_l; lia). lia.
Qed.

Lemma resize_core w h Sw Sh K1 K2 T ma my :
  0 < w < 2 ^ 31 → 0 < h < 2 ^ 31 →
  2 ^ 52 ≤ w * Sw < 2 ^ 53 → 2 ^ 52 ≤ h * Sh < 2 ^ 53 →
  2 ^ 52 ≤ ma < 2 ^ 53 →
  1 ≤ K1 ≤ 4 → 1 ≤ K2 ≤ 4 → 0 < T →
  T * Sw * K2 = 2 ^ 44 * Sh * K1 →
  2 * Z.abs (ma * K1 * (h * Sh) - w * Sw * 2 ^ 53) ≤ K1 * (h * Sh) →
  2 * Z.abs (my * K2 * ma - 500 * 2 ^ 44 * 2 ^ 53) ≤ K2 * ma →
  Z.abs (w * my - 500 * h * T) < T.
Proof.
  intros Hw Hh HW HH Hma HK1 HK2 HT Hrel H1 H2.
  pose proof (scale_bound w Sw Hw (proj1 HW)) as HSw.
  pose proof (scale_bound h Sh Hh (proj1 HH)) as HSh.
  set (W := w * Sw) in *. set (H := h * Sh) in *.
  set (t1 := ma * K1 * H - W * 2 ^ 53) in *.
  set (t2 := my * K2 * ma - 500 * 2 ^ 44 * 2 ^ 53) in *.
  assert (0 < K1 * H) as HK1H by (apply Z.mul_pos_pos; lia).
  assert (0 < Sh * K1) as HShK1 by (apply Z.mul_pos_pos; lia).
  apply abs_lt_of_scaled with (F := K2 * ma * K1 * H * Sw).
  { repeat apply Z.mul_pos_pos; lia. }
  assert ((w * my - 500 * h * T) * (K2 * ma * K1 * H * Sw)
          = K1 * H * (W * t2 - 500 * 2 ^ 44 * t1)) as ->.
  { transitivity (W * (my * K2 * ma) * K1 * H - 500 * h * (T * Sw * K2) * ma * K1 * H).
    - unfold W. ring.
    - rewrite Hrel. unfold t1, t2, H. ring. }
  assert (T * (K2 * ma * K1 * H * Sw) = K1 * H * (2 ^ 44 * (Sh * K1) * ma)) as ->.
  { transitivity ((T * Sw * K2) * ma * K1 * H); [ring|]. rewrite Hrel. ring. }
  rewrite Z.abs_mul, (Z.abs_eq (K1 * H)) by lia.
  apply Z.mul_lt_mono_pos_l; [done|].
  assert (2 * Z.abs (W * t2) ≤ 2 ^ 55 * ma) as Ha.
  { rewrite Z.abs_mul, (Z.abs_eq W) by lia.
    transitivity (W * (K2 * ma)).
    - rewrite Z.mul_assoc, (Z.mul_comm 2 W), <- Z.mul_assoc.
      apply Z.mul_le_mono_nonneg_l; lia.
    - transitivity (2 ^ 53 * (4 * ma)).
      + apply Z.mul_le_mono_nonneg; try lia.
        apply Z.mul_le_mono_nonneg_r; lia.
      + lia. }
  assert (2 * Z.abs (500 * 2 ^ 44 * t1) ≤ 2 ^ 84 * (Sh * K1)) as Hb.
  { rewrite Z.abs_mul, (Z.abs_eq (500 * 2 ^ 44)) by lia.
    transitivity (500 * 2 ^ 44 * (K1 * H)).
    - rewrite Z.mul_assoc, (Z.mul_comm 2 (500 * 2 ^ 44)), <- Z.mul_assoc.
      apply Z.mul_le_mono_nonneg_l; lia.
    - unfold H.
      assert (K1 * (h * Sh) ≤ 2 ^ 31 * (Sh * K1)) as Hh'.
      { replace (K1 * (h * Sh)) with (h * (Sh * K1)) by ring.
        apply Z.mul_le_mono_nonneg_r; lia. }
      lia. }
  assert (2 ^ 52 * (2 ^ 44 * (Sh * K1)) ≤ 2 ^ 44 * (Sh * K1) * ma) as Hc.
  { rewrite (Z.mul_comm (2 ^ 44 * (Sh * K1)) ma).
    apply Z.mul_le_mono_nonneg_r; lia. }
  assert (2 ^ 21 * (2 ^ 44 * ma) ≤ 2 ^ 44 * (Sh * K1) * ma) as Hd.
  { replace (2 ^ 44 * (Sh * K1) * ma) with ((Sh * K1) * (2 ^ 44 * ma)) by ring.
    apply Z.mul_le_mono_nonneg_r; [lia|].
    transitivity (Sh * 1); [lia|]. apply Z.mul_le_mono_nonneg_l; lia. }
  pose proof (Z.abs_triangle (W * t2) (- (500 * 2 ^ 44 * t1))) as Htri.
  rewrite Z.abs_opp in Htri.
  replace (W * t2 + - (500 * 2 ^ 44 * t1)) with (W * t2 - 500 * 2 ^ 44 * t1) in Htri by ring.
  lia.
Qed.

(** Truncating [my / T] when [w * my] is within [T] of [500 * h * T]. *)
Lemma floor_between w h T my :
  0 < w → 0 < T → Z.abs (w * my - 500 * h * T) < T →
  w * (my / T) ≤ 500 * h ≤ w * (my / T + 1).
Proof.
  intros Hw HT Habs.
  pose proof (Z.mul_div_le my T HT) as Hlo.
  pose proof (Z.mul_succ_div_gt my T HT) as Hhi.
  set (n := my / T) in *.
  assert (w * (T * n) ≤ w * my) as Hlo' by (apply Z.mul_le_mono_nonneg_l; lia).
  assert (w * my < w * (T * Z.succ n)) as Hhi' by (apply Z.mul_lt_mono_pos_l; lia).
  split.
  - apply Z.lt_succ_r, (Z.mul_lt_mono_pos_r T); [done|].
    replace (w * n * T) with (w * (T * n)) by ring. lia.
  - apply Z.lt_pred_le, (Z.mul_lt_mono_pos_r T); [done|].
    replace (w * (n + 1) * T) with (w * (T * Z.succ n)) by ring. lia.
Qed.

Lemma pow2_small k : 0 ≤ k ≤ 2 → 1 ≤ 2 ^ k ≤ 4.
Proof.
  intros Hk. assert (k = 0 ∨ k = 1 ∨ k = 2) as Hcases by lia.
  destruct Hcases as [Hk'|[Hk'|Hk']]; rewrite Hk'; simpl; lia.
Qed.

Lemma float_of_int_500 :
  Prim2SF (float_of_int 500) = S754_finite false 8796093022208000 (-44).
Proof. reflexivity. Qed.

(** The height line 138 computes, before the resize: within one of
    [500 * h / w] from below, for every PIL size. *)
Lemma new_height_near_ratio im w h :
  image_size im = (w, h) → 0 < w < 2 ^ 31 → 0 < h < 2 ^ 31 →
  ∃ n, resized_image im = image_resize im (500, n) ∧
       0 ≤ n ∧ w * n ≤ 500 * h ≤ w * (n + 1).
Proof.
  intros Hsize Hw Hh.
  destruct (Binary64.of_uint63_exact w ltac:(lia)) as (mw & ew & HFw & Hmw & Hew & Hvw).
  destruct (Binary64.of_uint63_exact h ltac:(lia)) as (mh & eh & HFh & Hmh & Heh & Hvh).
  fold (float_of_int w) in HFw. fold (float_of_int h) in HFh.
  assert (ew ≤ -22) as Hew'.
  { pose proof (scale_bound w (2 ^ (- ew)) Hw ltac:(lia)) as Hs.
    apply Z.pow_lt_mono_r_iff in Hs; lia. }
  assert (eh ≤ -22) as Heh'.
  { pose proof (scale_bound h (2 ^ (- eh)) Hh ltac:(lia)) as Hs.
    apply Z.pow_lt_mono_r_iff in Hs; lia. }
  destruct (Binary64.SF64div_normal mw ew mh eh Hmw Hmh ltac:(lia))
    as (ma & k1 & Ha & Hk1 & Hma & Herr1).
  rewrite <- HFw, <- HFh, <- FloatAxioms.div_spec in Ha.
  set (a := (float_of_int w / float_of_int h)%float) in *.
  destruct (Binary64.SF64div_normal 8796093022208000 (-44) ma (ew - eh - 53 + k1)
              ltac:(lia) Hma ltac:(lia))
    as (my & k2 & Hy & Hk2 & Hmy & Herr2).
  rewrite <- float_of_int_500, <- Ha, <- FloatAxioms.div_spec in Hy.
  set (y := (float_of_int 500 / a)%float) in *.
  set (t := 44 + ew - eh + k1 - k2).
  assert (-44 - (ew - eh - 53 + k1) - 53 + k2 = - t) as Het by (unfold t; lia).
  rewrite Het in Hy.
  assert (0 < t) as Ht by (unfold t; lia).
  assert (0 < 2 ^ t) as Hpow by (apply Z.pow_pos_nonneg; lia).
  assert (Z.abs (w * Z.pos my - 500 * h * 2 ^ t) < 2 ^ t) as Hclose.
  { apply (resize_core w h (2 ^ (- ew)) (2 ^ (- eh)) (2 ^ k1) (2 ^ k2) (2 ^ t) (Z.pos ma));
      try done.
    - by rewrite <- Hvw.
    - by rewrite <- Hvh.
    - by apply pow2_small.
    - by apply pow2_small.
    - rewrite <- !Z.pow_add_r by lia. f_equal. unfold t. lia.
    - by rewrite <- Hvw, <- Hvh. }
  pose proof (floor_between w h (2 ^ t) (Z.pos my) ltac:(lia) Hpow Hclose) as Hn.
  exists (Z.pos my / 2 ^ t). split_and!; [|apply Z.div_pos; lia|lia|lia].
  unfold resized_image. rewrite Hsize. unfold int_truediv.
  replace (h =? 0) with false by (symmetry; apply Z.eqb_neq; lia).
  fold a. simpl. unfold float_rtruediv.
  rewrite FloatAxioms.eqb_spec, Ha. simpl SFeqb. cbn iota.
  fold y. simpl. unfold py_int. rewrite Hy.
  replace (0 <=? - t) with false by (symmetry; apply Z.leb_gt; lia).
  rewrite Z.opp_involutive. simpl cond_Zopp. done.
Qed.


(** The uploader hands over a file whose name has one of the extensions,
    whatever the Streamlit. *)
Lemma accepted_handed env w file :
  accepted w = Some file → handed env w = Returned (Some file).
Proof.
  unfold accepted, handed. destruct (chosen_file w) as [f|]; [|done].
  destruct (allowed_name upload_types (name f)); [|done].
  intros [= ->]. by rewrite andb_false_r.
Qed.

(** With an accepted image, the page below the configuration shows the
    display copy and the button; the trigger, if any, then runs on the
    uploaded file itself. *)
Lemma app_ui_with_image env secrets wd medical_agent file s im resized :
  handed env wd = Returned (Some file) →
  image_open env (getbuffer file) = Returned im →
  resized_image im = Returned resized →
  app_ui env secrets wd medical_agent s =
    (if analyze_clicked wd then analyze env secrets medical_agent file else ret tt)
      (State (session_state s) (files s) (page s ++ upload_page resized) (calls s)).
Proof.
  intros Hfile Hopen Hresized.
  unfold app_ui, st_title, st_write, st_file_uploader, st_button, upload_page.
  fold upload_types. unfold handed in Hfile.
  destruct (chosen_file wd) as [f|]; [|done].
  destruct (upload_type_enforced env && negb (allowed_name upload_types (name f)));
    [done|]. injection Hfile as ->.
  unfold mbind, script_bind, mret, script_ret, bind, render, ret, lift. simpl.
  rewrite Hopen, Hresized. simpl. rewrite <- !app_assoc. simpl.
  by destruct (analyze_clicked wd).
Qed.

(** Truncation alone loses the exact ratio: 3 by 2 becomes 500 by 333. *)
Lemma resized_3_by_2 : resized_image (sound_image (3, 2)) = Returned (500, 333).
Proof. reflexivity. Qed.


(** A height that does not fit a C int is refused by the resize. *)
Lemma resized_1_by_4294968 :
  resized_image (sound_image (1, 4294968)) =
    Raised (OverflowError "signed integer is greater than maximum").
Proof. reflexivity. Qed.




(** ** The scenarios of the specification, run *)

(** Model key "K1", search key present, "scan.png" uploaded, analysis
    triggered, and the model call times out: the run ends normally with the
    error message last on the page, no file on disk, and the model call as
    the only call. *)
Example scenario_model_timeout :
  let '(r, s) := app (env_of (Raised timed_out) found_one) sample_secrets trigger sample_state in
  r = Returned tt ∧
  last (page s) = Some (StError [Lit "Analysis error: "; Exn timed_out]) ∧
  files s !! "temp_medical_image.png" = None ∧
  calls s = [model_call sample_agent sample_file].
Proof. vm_compute. done. Qed.

(** The same with a model answer and a search that finds two items: after
    the ten elements of the configuration and the upload come the report,
    then the two entries in the order returned; no file is left. *)
Example scenario_report_and_two_results :
  let '(r, s) := app (env_of (Returned "### Findings...") found_two) sample_secrets trigger
                     sample_state in
  r = Returned tt ∧
  drop 10 (page s) =
    report "### Findings..." ++
    [StMarkdown (plain "### 🔗 Relevant Medical Literature");
     StMarkdown [Lit "**["; Val (JStr "A"); Lit "]("; Val (JStr "http://x"); Lit ")**"];
     StWrite (JStr "s"); StMarkdown (plain "---");
     StMarkdown [Lit "**["; Val (JStr "B"); Lit "]("; Val (JStr "http://y"); Lit ")**"];
     StWrite (JStr "t"); StMarkdown (plain "---")] ∧
  files s !! "temp_medical_image.png" = None ∧
  calls s = [model_call sample_agent sample_file; fixed_search "S1"].
Proof. vm_compute. done. Qed.

(** The same run on a model that copies the file it is given: the copy
    holds the uploaded bytes, so the file was written before the call. *)
Example scenario_model_reads_upload :
  let '(r, s) := app env_copying sample_secrets trigger sample_state in
  r = Returned tt ∧
  files s !! "seen.bin" = Some (getbuffer sample_file) ∧
  files s !! "temp_medical_image.png" = None.
Proof. vm_compute. done. Qed.

(** "scan.gif" sent to a Streamlit that does not check the type on the
    server: the model and the search are called as for any other file. *)
Example scenario_gif_upload :
  calls (app (env_of (Returned "### Findings...") found_one) sample_secrets gif_trigger
           sample_state).2 =
    [model_call sample_agent gif_file; fixed_search "S1"].
Proof. vm_compute. done. Qed.

(** The reset button on a Streamlit without [st.experimental_rerun]: the
    key is cleared and the run ends with the [AttributeError]. *)
Example scenario_reset_on_later_streamlit :
  let '(r, s) := app (later_streamlit (env_of (Returned "") found_one)) sample_secrets
                     (Widgets "" true None false) sample_state in
  r = Raised (AttributeError "module 'streamlit' has no attribute 'experimental_rerun'") ∧
  session_state s !! "GEMINI_API_KEY" = Some None ∧
  calls s = [].
Proof. vm_compute. done. Qed.

(** * Further properties of the script *)

Lemma init_session_state_eq s :
  init_session_state s = (Returned tt, State (initialised s) (files s) (page s) (calls s)).
Proof.
  unfold init_session_state, session_contains, session_setattr, initialised.
  unfold mbind, script_bind, bind, mret, script_ret, ret.
  destruct (bool_decide _); [by destruct s|done].
Qed.

Lemma initialised_lookup s :
  initialised s !! "GEMINI_API_KEY" = Some (stored_key s).
Proof.
  unfold initialised, stored_key.
  destruct (session_state s !! "GEMINI_API_KEY") as [key|] eqn:Hkey.
  - rewrite bool_decide_eq_true_2 by eauto. by rewrite Hkey.
  - rewrite bool_decide_eq_false_2 by (intros [? ?]; congruence).
    by rewrite lookup_insert_eq.
Qed.

Lemma sidebar_rerun env secrets w s key :
  session_state s !! "GEMINI_API_KEY" = Some key →
  (if truthy key then reset_clicked w else truthy (Some (gemini_key_input w))) = true →
  ∃ els,
    sidebar env secrets w s =
      (Raised (if truthy key && negb (has_experimental_rerun env)
               then AttributeError "module 'streamlit' has no attribute 'experimental_rerun'"
               else RerunException),
       State (<["GEMINI_API_KEY":=if truthy key then None else Some (gemini_key_input w)]>
                (session_state s))
             (files s) (page s ++ els) (calls s)).
Proof.
  intros Hkey Hrerun.
  unfold sidebar, st_title, st_text_input, st_caption, st_success, st_button,
    st_experimental_rerun, st_rerun, session_getattr, session_setattr.
  unfold mbind, script_bind, bind, mret, script_ret, ret, raise, render. simpl.
  rewrite Hkey. destruct (truthy key); simpl.
  - rewrite Hrerun. simpl.
    destruct (has_experimental_rerun env); simpl; eexists; by rewrite <- !app_assoc.
  - simpl in Hrerun. rewrite Hrerun. simpl. eexists. by rewrite <- !app_assoc.
Qed.

Lemma sidebar_no_rerun env secrets w s key :
  session_state s !! "GEMINI_API_KEY" = Some key →
  (if truthy key then reset_clicked w else truthy (Some (gemini_key_input w))) = false →
  ∃ els,
    sidebar env secrets w s =
      (Returned tt, State (session_state s) (files s) (page s ++ els) (calls s)).
Proof.
  intros Hkey Hrerun.
  unfold sidebar, st_title, st_text_input, st_caption, st_success, st_button, st_rerun,
    st_error, st_info, st_warning, session_getattr, session_setattr.
  unfold mbind, script_bind, bind, mret, script_ret, ret, raise, render. simpl.
  rewrite Hkey. destruct (truthy key); simpl.
  - rewrite Hrerun. simpl. destruct (secrets_contains _ _); simpl;
      eexists; by rewrite <- !app_assoc.
  - simpl in Hrerun. rewrite Hrerun. simpl. destruct (secrets_contains _ _); simpl;
      eexists; by rewrite <- !app_assoc.
Qed.

Lemma insert_initialised v s :
  <["GEMINI_API_KEY":=v]> (initialised s) = <["GEMINI_API_KEY":=v]> (session_state s).
Proof.
  unfold initialised. destruct (bool_decide _); [done|]. apply insert_insert_eq.
Qed.

Lemma init_medical_agent_eq secrets s key :
  session_state s !! "GEMINI_API_KEY" = Some key →
  init_medical_agent secrets s = (Returned (agent_of secrets key), s).
Proof.
  intros Hkey. unfold init_medical_agent, session_getattr, agent_of, secrets_contains.
  unfold mbind, script_bind, bind, mret, script_ret, ret.
  rewrite Hkey. destruct key as [k|]; simpl; [|done].
  by destruct (negb (String.eqb k "") && _).
Qed.

(** A run that the sidebar ends: nothing but the session and the page has
    changed. *)
Lemma app_rerun env secrets w s :
  reruns w s = true →
  ∃ els,
    app env secrets w s =
      (Raised (sidebar_exit env s),
       State (after_rerun w s) (files s) (page s ++ els) (calls s)).
Proof.
  intros Hrerun. unfold app. unfold mbind, script_bind. unfold bind at 1.
  rewrite init_session_state_eq. unfold bind at 1.
  destruct (sidebar_rerun env secrets w (State (initialised s) (files s) (page s) (calls s))
              (stored_key s) (initialised_lookup s) Hrerun) as [els ->].
  exists els. simpl. unfold after_rerun, sidebar_exit. by rewrite insert_initialised.
Qed.

(** A run that gets past the sidebar continues below the configuration
    with the session initialised and [medical_agent] set. *)
Lemma app_no_rerun env secrets w s :
  reruns w s = false →
  ∃ els,
    app env secrets w s =
      app_ui env secrets w (configured_agent secrets s)
        (State (initialised s) (files s) (page s ++ els) (calls s)).
Proof.
  intros Hrerun. unfold app. unfold mbind, script_bind. unfold bind at 1.
  rewrite init_session_state_eq. unfold bind at 1.
  destruct (sidebar_no_rerun env secrets w (State (initialised s) (files s) (page s) (calls s))
              (stored_key s) (initialised_lookup s) Hrerun) as [els ->].
  simpl. unfold bind at 1.
  pose proof (init_medical_agent_eq secrets
                (State (initialised s) (files s) (page s ++ els) (calls s))
                (stored_key s) (initialised_lookup s)) as Hagent.
  fold (configured_agent secrets s) in Hagent.
  rewrite Hagent. unfold bind at 1.
  destruct (configured_agent secrets s) as [a|].
  - exists els. reflexivity.
  - remember (app_ui env secrets w None) as rest.
    eexists. unfold st_warning, render. simpl. by rewrite <- app_assoc.
Qed.

Section Frames.

Variable env : environment.
Variable secrets : gmap string string.

(** The trigger changes the session in no case, only adds to the page and
    to the calls, and leaves the disk as the model call left it, less the
    temporary file. *)
Lemma analyze_frame medical_agent file s :
  ∃ r els,
    analyze env secrets medical_agent file s =
      (r, State (session_state s)
                (delete image_path (disk_after_model env medical_agent file s))
                (page s ++ els)
                (calls s ++ calls_made (analyze env secrets medical_agent file) s)).
Proof.
  destruct medical_agent as [a|]; simpl.
  - destruct (agent_run env a query [image_path] (disk_at_call file s))
      as [[t|e] fs] eqn:Hrun; simpl.
    + destruct (analyze_model_returns env secrets a file t fs s Hrun)
        as (r & els & searches & Heq & _).
      exists r, (report t ++ els). rewrite Heq. repeat f_equal.
      symmetry. apply calls_made_app. by rewrite Heq.
    + pose proof (analyze_model_raises env secrets a file e fs s Hrun) as Heq.
      eexists _, _. rewrite Heq. repeat f_equal.
      symmetry. apply calls_made_app. by rewrite Heq.
  - rewrite (calls_made_app _ _ []) by (rewrite analyze_no_agent; simpl; by rewrite app_nil_r).
    rewrite analyze_no_agent, app_nil_r. by eexists _, _.
Qed.

Lemma app_ui_no_file wd medical_agent s :
  chosen_file wd = None →
  app_ui env secrets wd medical_agent s =
    (Returned tt,
     State (session_state s) (files s)
           (page s ++ upload_prompt ++
              [StInfo (plain "👆 Please upload a medical image to begin analysis.")])
           (calls s)).
Proof.
  intros Hnone. unfold app_ui, st_title, st_write, st_file_uploader, st_info, upload_prompt.
  rewrite Hnone.
  unfold mbind, script_bind, mret, script_ret, bind, render, ret. simpl.
  by rewrite <- !app_assoc.
Qed.

(** A file the uploader refuses ends the run at line 124. *)
Lemma app_ui_refused wd medical_agent s e :
  handed env wd = Raised e →
  ∃ els,
    app_ui env secrets wd medical_agent s =
      (Raised e, State (session_state s) (files s) (page s ++ els) (calls s)).
Proof.
  unfold handed. intros Hrefused.
  unfold app_ui, st_title, st_write, st_file_uploader. fold upload_types.
  destruct (chosen_file wd) as [f|]; [|done].
  destruct (upload_type_enforced env && negb (allowed_name upload_types (name f)));
    [|done]. injection Hrefused as <-.
  unfold mbind, script_bind, mret, script_ret, bind, render, ret, raise. simpl.
  eexists. by rewrite <- !app_assoc.
Qed.

(** A file handed over that cannot be opened or resized ends the run
    there: the exception is not caught and the button is never drawn. *)
Lemma app_ui_undisplayable wd medical_agent file s e :
  handed env wd = Returned (Some file) →
  image_open env (getbuffer file) ≫= resized_image = Raised e →
  app_ui env secrets wd medical_agent s =
    (Raised e, State (session_state s) (files s) (page s ++ upload_prompt) (calls s)).
Proof.
  intros Hfile Hfail.
  unfold app_ui, st_title, st_write, st_file_uploader, upload_prompt.
  fold upload_types. unfold handed in Hfile.
  destruct (chosen_file wd) as [f|]; [|done].
  destruct (upload_type_enforced env && negb (allowed_name upload_types (name f)));
    [done|]. injection Hfile as ->.
  unfold mbind, script_bind, mret, script_ret, bind, render, ret, lift. simpl.
  unfold mbind, outcome_bind in Hfail.
  destruct (image_open env (getbuffer file)) as [im|e']; simpl.
  - rewrite Hfail. simpl. by rewrite <- !app_assoc.
  - injection Hfail as ->. by rewrite <- !app_assoc.
Qed.

Lemma handed_chosen wd file :
  handed env wd = Returned (Some file) → chosen_file wd = Some file.
Proof.
  unfold handed. destruct (chosen_file wd) as [f|]; [|done].
  destruct (_ && _); [done|]. by intros [= ->].
Qed.

End Frames.

(** ** One run of the script, case by case *)

(** Either the run touches only the session and the page, or it reaches
    the trigger: the sidebar does not end it, a file is handed over that
    opens and resizes, and the button is clicked. *)
Lemma app_cases env secrets w s :
  (∃ r els,
     app env secrets w s =
       (r, State (if reruns w s then after_rerun w s else initialised s)
                 (files s) (page s ++ els) (calls s))) ∨
  (reruns w s = false ∧ analyze_clicked w = true ∧
   ∃ file resized els,
     handed env w = Returned (Some file) ∧
     image_open env (getbuffer file) ≫= resized_image = Returned resized ∧
     app env secrets w s =
       analyze env secrets (configured_agent secrets s) file
         (State (initialised s) (files s) (page s ++ els) (calls s))).
Proof.
  destruct (reruns w s) eqn:Hrerun.
  { left. destruct (app_rerun env secrets w s Hrerun) as [els ->]. by eexists _, els. }
  destruct (app_no_rerun env secrets w s Hrerun) as [els ->].
  destruct (handed env w) as [[file|]|e] eqn:Hfile.
  2:{ left. rewrite app_ui_no_file.
      - simpl. eexists _, _. by rewrite <- app_assoc.
      - unfold handed in Hfile. destruct (chosen_file w); [|done].
        by destruct (_ && _). }
  2:{ left. edestruct app_ui_refused as [els' ->]; [done|]. simpl.
      eexists _, _. by rewrite <- app_assoc. }
  destruct (image_open env (getbuffer file) ≫= resized_image) as [resized|e] eqn:Hshow.
  2:{ left. erewrite app_ui_undisplayable by done. simpl.
      eexists _, _. by rewrite <- app_assoc. }
  assert (∃ im, image_open env (getbuffer file) = Returned im ∧
                resized_image im = Returned resized) as (im & Hopen & Hresized).
  { unfold mbind, outcome_bind in Hshow.
    destruct (image_open env (getbuffer file)) as [im|]; [by exists im|done]. }
  erewrite app_ui_with_image by done. simpl.
  destruct (analyze_clicked w).
  - right. split_and!; [done..|]. exists file, resized, (els ++ upload_page resized).
    split_and!; [done..|]. by rewrite <- app_assoc.
  - left. unfold ret. eexists _, _. by rewrite <- app_assoc.
Qed.

(** ** The listing of the search results *)

Lemma render_result_entry result els s :
  entry_of result = Some els →
  render_result result s =
    (Returned tt, State (session_state s) (files s) (page s ++ els) (calls s)).
Proof.
  intros Hentry. destruct result as [| | | | |?|members]; try discriminate.
  simpl in Hentry. unfold render_result, st_markdown, st_write, render, lift.
  unfold mbind at 1 2 3 4 5, script_bind, bind. simpl.
  destruct (dict_lookup "title" members) as [title|]; [|done].
  destruct (dict_lookup "link" members) as [link|]; [|done].
  destruct (dict_lookup "snippet" members) as [snippet|]; [|done].
  simpl in *. injection Hentry as <-. unfold entry. by rewrite <- !app_assoc.
Qed.

Lemma for_each_listing results s :
  Forall (λ result, is_Some (entry_of result)) results →
  for_each results render_result s =
    (Returned tt, State (session_state s) (files s) (page s ++ listing results) (calls s)).
Proof.
  intros Hall. revert s. induction Hall as [|result results [els Hels] _ IH]; intros s.
  - simpl. unfold ret. rewrite app_nil_r. by destruct s.
  - simpl. unfold mbind, script_bind, bind.
    rewrite (render_result_entry result els) by done.
    rewrite IH. simpl. unfold listing. simpl. rewrite Hels. simpl.
    by rewrite <- app_assoc.
Qed.

Lemma render_result_no_title result e s :
  py_getitem result "title" = Raised e → render_result result s = (Raised e, s).
Proof.
  intros Hfail. unfold render_result, lift. unfold mbind at 1, script_bind, bind.
  by rewrite Hfail.
Qed.

Lemma for_each_broken good bad rest e s :
  Forall (λ result, is_Some (entry_of result)) good →
  py_getitem bad "title" = Raised e →
  for_each (good ++ bad :: rest) render_result s =
    (Raised e, State (session_state s) (files s) (page s ++ listing good) (calls s)).
Proof.
  intros Hall Hbad. revert s. induction Hall as [|result results [els Hels] _ IH]; intros s.
  - simpl. unfold mbind, script_bind, bind.
    rewrite (render_result_no_title bad e) by done. rewrite app_nil_r. by destruct s.
  - simpl. unfold mbind, script_bind, bind.
    rewrite (render_result_entry result els) by done.
    rewrite IH. simpl. unfold listing. simpl. rewrite Hels. simpl.
    by rewrite <- app_assoc.
Qed.

Section Search.

Variable env : environment.
Variable secrets : gmap string string.

Lemma literature_eq key s :
  secrets !! "SERPER_API_KEY" = Some key →
  literature env secrets s =
    match search_result (requests_get env search_url
            (search_params "Medical imaging abnormalities similar cases" key
               "custom-search-engine-id" 3)) with
    | Raised e =>
        (Raised e, State (session_state s) (files s) (page s) (calls s ++ [fixed_search key]))
    | Returned results =>
        match py_iter results with
        | Raised e =>
            (Raised e, State (session_state s) (files s) (page s ++ [literature_header])
                             (calls s ++ [fixed_search key]))
        | Returned rs =>
            for_each rs render_result
              (State (session_state s) (files s) (page s ++ [literature_header])
                     (calls s ++ [fixed_search key]))
        end
    end.
Proof.
  intros Hkey. unfold literature, secrets_getitem. rewrite Hkey.
  unfold mbind, script_bind, mret, script_ret. unfold bind at 1, ret. unfold bind at 1.
  rewrite google_custom_search_eq. unfold fixed_search. simpl default.
  destruct (search_result _) as [results|e]; [|done].
  unfold bind at 1, st_markdown, render, literature_header. simpl.
  unfold bind at 1, lift. by destruct (py_iter results).
Qed.

(** X11.  When the search answers with a 4xx or 5xx status after the model
    has answered, the report stays on the page, followed by the one error
    message for that [HTTPError]; the trigger returns normally and the
    temporary file is removed. *)
Theorem search_failure_keeps_report a file s t fs key r :
  agent_run env a query [image_path] (disk_at_call file s) = (Returned t, fs) →
  secrets !! "SERPER_API_KEY" = Some key →
  requests_get env search_url
    (search_params "Medical imaging abnormalities similar cases" key
       "custom-search-engine-id" 3) = Returned r →
  400 ≤ status_code r < 600 →
  analyze env secrets (Some a) file s =
    (Returned tt,
     State (session_state s) (delete image_path fs)
           (page s ++ report t ++ [StError [Lit "Analysis error: ";
                                            Exn (HTTPError (status_code r))]])
           (calls s ++ [model_call a file; fixed_search key])).
Proof.
  intros Hrun Hkey Hget [Hlo Hhi]. rewrite analyze_eq.
  erewrite analysis_model_returns by exact Hrun.
  rewrite (literature_eq key) by done. rewrite Hget. simpl.
  apply Z.leb_le in Hlo. apply Z.ltb_lt in Hhi. rewrite Hlo, Hhi. simpl.
  rewrite disk_at_call_lookup. unfold error_message, model_call.
  by rewrite <- !app_assoc.
Qed.

(** X12.  When the search returns results that are dicts with "title",
    "link" and "snippet", the page gets, after the report and the heading,
    the three elements of each result in the order returned, and nothing
    else; the trigger returns normally. *)
Theorem results_listed_in_order a file s t fs key r members results :
  agent_run env a query [image_path] (disk_at_call file s) = (Returned t, fs) →
  secrets !! "SERPER_API_KEY" = Some key →
  requests_get env search_url
    (search_params "Medical imaging abnormalities similar cases" key
       "custom-search-engine-id" 3) = Returned r →
  200 ≤ status_code r < 300 →
  json_body r = Some (JObj members) →
  dict_lookup "items" members = Some (JArr results) →
  Forall (λ result, is_Some (entry_of result)) results →
  analyze env secrets (Some a) file s =
    (Returned tt,
     State (session_state s) (delete image_path fs)
           (page s ++ report t ++ [literature_header] ++ listing results)
           (calls s ++ [model_call a file; fixed_search key])).
Proof.
  intros Hrun Hkey Hget [Hlo Hhi] Hbody Hitems Hall. rewrite analyze_eq.
  erewrite analysis_model_returns by exact Hrun.
  rewrite (literature_eq key) by done. rewrite Hget. simpl.
  replace (400 <=? status_code r) with false by (symmetry; apply Z.leb_gt; lia).
  simpl. rewrite Hbody. simpl. rewrite Hitems. simpl.
  rewrite for_each_listing by done. simpl.
  rewrite disk_at_call_lookup. unfold model_call.
  by rewrite <- !app_assoc.
Qed.

(** X13.  A result whose title cannot be read (no "title" key, or not a
    dict) stops the listing: the results before it are listed, then comes the
    error message for that exception, and the results after it are not
    shown. *)
Theorem broken_result_stops_listing a file s t fs key r members good bad rest e :
  agent_run env a query [image_path] (disk_at_call file s) = (Returned t, fs) →
  secrets !! "SERPER_API_KEY" = Some key →
  requests_get env search_url
    (search_params "Medical imaging abnormalities similar cases" key
       "custom-search-engine-id" 3) = Returned r →
  200 ≤ status_code r < 300 →
  json_body r = Some (JObj members) →
  dict_lookup "items" members = Some (JArr (good ++ bad :: rest)) →
  Forall (λ result, is_Some (entry_of result)) good →
  py_getitem bad "title" = Raised e →
  analyze env secrets (Some a) file s =
    (Returned tt,
     State (session_state s) (delete image_path fs)
           (page s ++ report t ++ [literature_header] ++ listing good ++
              [StError [Lit "Analysis error: "; Exn e]])
           (calls s ++ [model_call a file; fixed_search key])).
Proof.
  intros Hrun Hkey Hget [Hlo Hhi] Hbody Hitems Hall Hbad. rewrite analyze_eq.
  erewrite analysis_model_returns by exact Hrun.
  rewrite (literature_eq key) by done. rewrite Hget. simpl.
  replace (400 <=? status_code r) with false by (symmetry; apply Z.leb_gt; lia).
  simpl. rewrite Hbody. simpl. rewrite Hitems. simpl.
  rewrite (for_each_broken good bad rest e) by done. simpl.
  assert (is_Exception e = true) as ->.
  { destruct bad as [| | | | | |ms]; simpl in Hbad; try by injection Hbad as <-.
    destruct (dict_lookup "title" ms); [done|by injection Hbad as <-]. }
  rewrite disk_at_call_lookup. unfold model_call, error_message.
  by rewrite <- !app_assoc.
Qed.

End Search.

(** ** The credential store *)

Lemma truthy_stored s :
  truthy (stored_key s) = true ↔
  ∃ k, session_state s !! "GEMINI_API_KEY" = Some (Some k) ∧ k ≠ "".
Proof.
  unfold stored_key.
  destruct (session_state s !! "GEMINI_API_KEY") as [[k|]|]; simpl.
  - destruct (String.eqb_spec k "") as [->|Hk]; simpl.
    + split; [done|]. by intros (k & [= <-] & Hk).
    + split; [by exists k|done].
  - split; [done|]. by intros (k & [=] & _).
  - split; [done|]. by intros (k & [=] & _).
Qed.

(** X1.  A key typed in while none is stored is saved in the session and
    the run stops there for a rerun, with no call made and the disk as it
    was; on the saved session, lines 62-71 build the agent with that key
    when the search key is configured. *)
Theorem key_entry_is_saved env secrets w s :
  truthy (stored_key s) = false →
  gemini_key_input w ≠ "" →
  ∃ els,
    let s' := State (<["GEMINI_API_KEY":=Some (gemini_key_input w)]> (session_state s))
                    (files s) (page s ++ els) (calls s) in
    app env secrets w s = (Raised RerunException, s') ∧
    ∀ key, secrets !! "SERPER_API_KEY" = Some key →
      (init_medical_agent secrets s').1 =
        Returned (Some (Agent (gemini_key_input w) "gemini-2.0-flash-exp" None true)).
Proof.
  intros Hnone Hinput.
  assert (truthy (Some (gemini_key_input w)) = true) as Htyped.
  { simpl. by destruct (String.eqb_spec (gemini_key_input w) ""). }
  destruct (app_rerun env secrets w s) as [els Happ].
  { unfold reruns. by rewrite Hnone. }
  unfold after_rerun, sidebar_exit in Happ. rewrite Hnone in Happ.
  exists els. split; [done|]. intros key Hkey.
  erewrite init_medical_agent_eq by apply lookup_insert_eq.
  unfold agent_of. by rewrite Htyped, Hkey.
Qed.

(** X2.  The reset button clicked while a key is stored sets the stored
    key to [None] and ends the run at line 45, with no call made and the
    disk as it was: for a rerun where Streamlit has [st.experimental_rerun]
    (up to release 1.36), with an uncaught [AttributeError] where it has
    not (from 1.37).  Either way, on the session it leaves [medical_agent]
    is [None]. *)
Theorem reset_clears_key env secrets w s :
  truthy (stored_key s) = true →
  reset_clicked w = true →
  ∃ els,
    let s' := State (<["GEMINI_API_KEY":=None]> (session_state s))
                    (files s) (page s ++ els) (calls s) in
    app env secrets w s =
      (Raised (if has_experimental_rerun env then RerunException
               else AttributeError "module 'streamlit' has no attribute 'experimental_rerun'"),
       s') ∧
    (init_medical_agent secrets s').1 = Returned None.
Proof.
  intros Hstored Hreset.
  destruct (app_rerun env secrets w s) as [els Happ].
  { unfold reruns. by rewrite Hstored. }
  unfold after_rerun, sidebar_exit in Happ. rewrite Hstored in Happ.
  exists els. split.
  - rewrite Happ. by destruct (has_experimental_rerun env).
  - by erewrite init_medical_agent_eq by apply lookup_insert_eq.
Qed.

(** X3.  A stored key survives every run in which the reset button is not
    clicked: whatever is uploaded and whatever the model and the search do,
    the run ends with the session state it started with. *)
Theorem stored_key_survives env secrets w s :
  truthy (stored_key s) = true →
  reset_clicked w = false →
  session_state (app env secrets w s).2 = session_state s.
Proof.
  intros Hstored Hreset.
  assert (reruns w s = false) as Hrerun by (unfold reruns; by rewrite Hstored).
  assert (initialised s = session_state s) as Hinit.
  { apply truthy_stored in Hstored as (k & Hk & _). unfold initialised.
    by rewrite bool_decide_eq_true_2 by eauto. }
  destruct (app_cases env secrets w s) as [(r & els & ->)|(_ & _ & file & resized & els & _ & _ & ->)].
  - simpl. by rewrite Hrerun.
  - destruct (analyze_frame env secrets (configured_agent secrets s) file
                (State (initialised s) (files s) (page s ++ els) (calls s)))
      as (r & els' & ->).
    done.
Qed.

(** ** What a run calls *)

(** The calls of a run, and its disk: nothing without the trigger, those of
    the trigger otherwise. *)
Lemma app_calls env secrets w s :
  (calls_made (app env secrets w) s = [] ∧ files (app env secrets w s).2 = files s) ∨
  (reruns w s = false ∧ analyze_clicked w = true ∧
   ∃ file s2,
     handed env w = Returned (Some file) ∧ files s2 = files s ∧
     calls_made (app env secrets w) s =
       calls_made (analyze env secrets (configured_agent secrets s) file) s2).
Proof.
  destruct (app_cases env secrets w s)
    as [(r & els & Happ)|(Hrerun & Hclick & file & resized & els & Hfile & _ & Happ)].
  - left. split; [|by rewrite Happ].
    apply calls_made_app. rewrite Happ. simpl. by rewrite app_nil_r.
  - right. split_and!; [done..|].
    exists file, (State (initialised s) (files s) (page s ++ els) (calls s)).
    split_and!; [done..|]. unfold calls_made at 1. by rewrite Happ.
Qed.

Lemma configured_agent_some secrets s a :
  configured_agent secrets s = Some a →
  ∃ k, session_state s !! "GEMINI_API_KEY" = Some (Some k) ∧ k ≠ "" ∧
       is_Some (secrets !! "SERPER_API_KEY") ∧
       a = Agent k "gemini-2.0-flash-exp" None true.
Proof.
  unfold configured_agent, agent_of, stored_key.
  destruct (session_state s !! "GEMINI_API_KEY") as [[k|]|]; simpl; try done.
  destruct (String.eqb_spec k "") as [->|Hk]; simpl; [done|].
  destruct (decide (is_Some (secrets !! "SERPER_API_KEY"))) as [Hs|Hs].
  - rewrite bool_decide_eq_true_2 by done. intros [= <-]. by exists k.
  - by rewrite bool_decide_eq_false_2 by done.
Qed.

(** X4.  Without a stored model key or without the search key in the
    secrets, no run calls the model or the search service, whatever is
    uploaded or clicked. *)
Theorem no_call_without_both_keys env secrets w s :
  truthy (stored_key s) = false ∨ secrets !! "SERPER_API_KEY" = None →
  calls_made (app env secrets w) s = [].
Proof.
  intros Hmissing.
  assert (configured_agent secrets s = None) as Hagent.
  { destruct (configured_agent secrets s) as [a|] eqn:Ha; [|done].
    apply configured_agent_some in Ha as (k & Hk & Hne & [key Hkey] & _).
    destruct Hmissing as [Hfalsy|Hnone]; [|congruence].
    assert (truthy (stored_key s) = true) by (apply truthy_stored; eauto). congruence. }
  destruct (app_calls env secrets w s) as [[Hnone _]|(_ & _ & file & s2 & _ & _ & ->)];
    [done|].
  rewrite Hagent. apply calls_made_app. rewrite analyze_no_agent. simpl. by rewrite app_nil_r.
Qed.

(** X5.  A run in which the analyze button is not clicked makes no call
    and leaves the disk as it was. *)
Theorem no_call_without_click env secrets w s :
  analyze_clicked w = false →
  calls_made (app env secrets w) s = [] ∧ files (app env secrets w s).2 = files s.
Proof.
  intros Hclick.
  destruct (app_calls env secrets w s) as [Hquiet|(_ & Hclicked & _)]; [done|congruence].
Qed.

(** X6.  Whenever a run calls the model, both keys are configured, the
    button was clicked on a chosen file, the agent is Gemini
    "gemini-2.0-flash-exp" with the stored key, no tools and markdown on, the
    prompt is [query], and the one image is the temporary file holding the
    bytes of the chosen file as uploaded (not the display copy). *)
Theorem model_call_provenance env secrets w s a prompt images :
  ModelRun a prompt images ∈ calls_made (app env secrets w) s →
  ∃ k file,
    session_state s !! "GEMINI_API_KEY" = Some (Some k) ∧ k ≠ "" ∧
    is_Some (secrets !! "SERPER_API_KEY") ∧
    chosen_file w = Some file ∧ analyze_clicked w = true ∧
    a = Agent k "gemini-2.0-flash-exp" None true ∧
    prompt = query ∧
    images = [("temp_medical_image.png", Some (getbuffer file))].
Proof.
  intros Hin.
  destruct (app_calls env secrets w s)
    as [[Hnone _]|(_ & Hclick & file & s2 & Hfile & _ & Hcalls)].
  { rewrite Hnone in Hin. by apply elem_of_nil in Hin. }
  rewrite Hcalls in Hin.
  pose proof (analyze_calls env secrets (configured_agent secrets s) file s2) as Hmade.
  destruct (configured_agent secrets s) as [a'|] eqn:Hagent.
  2:{ rewrite Hmade in Hin. by apply elem_of_nil in Hin. }
  apply configured_agent_some in Hagent as (k & Hk & Hne & Hsecret & ->).
  assert (chosen_file w = Some file) as Hchosen by (by eapply handed_chosen).
  exists k, file. split_and!; [done..| | |];
    destruct (agent_run env _ query [image_path] (disk_at_call file s2)) as [[t|e] fs];
    try destruct Hmade as [Hmade|(key & _ & Hmade)]; rewrite Hmade in Hin;
    unfold model_call, fixed_search in Hin; in_list Hin;
    first [discriminate | by injection Hin as -> -> ->].
Qed.

(** X7.  When [Image.open] or the resize raises on an accepted file, the
    exception leaves the run (lines 134-139 are outside the [try]): the page
    ends with the uploader, no button is drawn, no call is made and the disk
    is as it was. *)
Theorem undisplayable_image_ends_run env secrets w s file e :
  reruns w s = false →
  accepted w = Some file →
  image_open env (getbuffer file) ≫= resized_image = Raised e →
  ∃ els,
    app env secrets w s =
      (Raised e, State (initialised s) (files s) (page s ++ els ++ upload_prompt) (calls s)).
Proof.
  intros Hrerun Hfile Hfail.
  destruct (app_no_rerun env secrets w s Hrerun) as [els ->].
  erewrite app_ui_undisplayable by (done || by apply accepted_handed). simpl.
  exists els. by rewrite <- app_assoc.
Qed.

(** ** The upload gate *)

(** C8, as stated, fails: the script never looks at the name of the file,
    and a Streamlit that leaves the check of [type] to the browser (every
    release up to 1.42) hands it "scan.gif" when that is what was sent; PIL
    opens it, and with the button clicked the model and the search are
    called. *)
Lemma gif_upload_reaches_the_model : ¬ disallowed_upload_never_calls.
Proof.
  intros Hclaim.
  pose proof (Hclaim (env_of (Returned "### Findings...") found_one) sample_secrets
                gif_trigger sample_state gif_file eq_refl eq_refl) as Hnone.
  vm_compute in Hnone. discriminate Hnone.
Qed.

(** C8, amended.  Under a Streamlit that checks the uploader's [type] on
    the server (release 1.43 and later), a file whose name does not end in
    one of the extensions jpg, jpeg, png, dicom is refused at line 124: the
    run makes no call to the model or the search service and writes no
    file, and unless the sidebar has ended it before, it ends there with
    Streamlit's exception.  Conversely a run that makes a call was sent a
    file with one of these extensions. *)
Theorem disallowed_upload_makes_no_call env secrets w s :
  upload_type_enforced env = true →
  (∀ f, chosen_file w = Some f →
        allowed_name ["jpg"; "jpeg"; "png"; "dicom"] (name f) = false →
        calls_made (app env secrets w) s = [] ∧
        files (app env secrets w s).2 = files s ∧
        (reruns w s = false →
         ∃ msg, (app env secrets w s).1 = Raised (StreamlitAPIException msg))) ∧
  (calls_made (app env secrets w) s ≠ [] →
   ∃ f, chosen_file w = Some f ∧
        allowed_name ["jpg"; "jpeg"; "png"; "dicom"] (name f) = true).
Proof.
  intros Hchecked. fold upload_types. split.
  - intros f Hf Hrej.
    assert (handed env w = Raised (StreamlitAPIException "Invalid file extension"))
      as Hrefused by (unfold handed; by rewrite Hf, Hchecked, Hrej).
    destruct (app_calls env secrets w s)
      as [[Hnone Hfiles]|(_ & _ & file & s2 & Hfile & _)]; [|congruence].
    split_and!; [done..|]. intros Hrerun.
    destruct (app_no_rerun env secrets w s Hrerun) as [els ->].
    edestruct app_ui_refused as [els' ->]; [exact Hrefused|]. by eexists.
  - intros Hcalls.
    destruct (app_calls env secrets w s)
      as [[Hnone _]|(_ & _ & file & s2 & Hfile & _)]; [done|].
    exists file. split; [by eapply handed_chosen|].
    unfold handed in Hfile. destruct (chosen_file w) as [f|]; [|done].
    rewrite Hchecked in Hfile.
    destruct (allowed_name upload_types (name f)) eqn:Hok; [|done].
    by injection Hfile as ->.
Qed.

Lemma gif_upload_witness :
  calls_made (app (later_streamlit (env_of (Returned "### Findings...") found_one))
                sample_secrets gif_trigger) sample_state = [] ∧
  files (app (later_streamlit (env_of (Returned "### Findings...") found_one))
           sample_secrets gif_trigger sample_state).2 = files sample_state ∧
  (reruns gif_trigger sample_state = false →
   ∃ msg, (app (later_streamlit (env_of (Returned "### Findings...") found_one))
             sample_secrets gif_trigger sample_state).1 = Raised (StreamlitAPIException msg)).
Proof.
  apply (proj1 (disallowed_upload_makes_no_call
                  (later_streamlit (env_of (Returned "### Findings...") found_one))
                  sample_secrets gif_trigger sample_state eq_refl) gif_file); reflexivity.
Defined.

(** ** The trigger: what it leaves alone *)

Section TriggerFrame.

Variable env : environment.
Variable secrets : gmap string string.

(** X9.  The trigger never changes the session state, only adds to the
    page, and leaves the disk as the model call left it less the temporary
    file; when the model call leaves the disk as it found it, a second
    trigger on the same file finds the same disk. *)
Theorem trigger_frame medical_agent file s :
  let s' := (analyze env secrets medical_agent file s).2 in
  session_state s' = session_state s ∧
  files s' = delete image_path (disk_after_model env medical_agent file s) ∧
  (∃ els, page s' = page s ++ els) ∧
  (disk_after_model env medical_agent file s = disk_at_call file s →
   disk_at_call file s' = disk_at_call file s).
Proof.
  destruct (analyze_frame env secrets medical_agent file s) as (r & els & Heq).
  simpl. rewrite Heq. simpl. split_and!; [done|done|by exists els|].
  intros Hsame. unfold disk_at_call in *. simpl. rewrite Hsame.
  by rewrite insert_delete_eq, insert_insert_eq.
Qed.

(** X10.  An exception of the model call that is not an [Exception]
    (KeyboardInterrupt, SystemExit) is not caught: it leaves the trigger, no
    error message is added to the page, and the temporary file is removed
    all the same. *)
Theorem interrupt_propagates_after_cleanup a file s e fs :
  agent_run env a query [image_path] (disk_at_call file s) = (Raised e, fs) →
  is_Exception e = false →
  analyze env secrets (Some a) file s =
    (Raised e,
     State (session_state s) (delete image_path fs) (page s)
           (calls s ++ [model_call a file])).
Proof.
  intros Hrun Hexc. rewrite (analyze_model_raises env secrets a file e fs s Hrun).
  by rewrite Hexc, app_nil_r.
Qed.

End TriggerFrame.

(** ** The search function: its other failures *)

Section SearchFailures.

Variable env : environment.

(** X14.  The search function sends its one request and then fails when
    [requests.get] raises (with that exception), when the body of a response
    that is no 4xx or 5xx is not JSON ([JSONDecodeError]) and when the body
    is JSON but not an object ([AttributeError] on [.get]); the request is
    all it leaves behind. *)
Theorem search_fails_without_json_object q k c n s :
  let sent := State (session_state s) (files s) (page s)
                (calls s ++ [HttpGet search_url (search_params q k c (default 3 n))]) in
  (∀ e, requests_get env search_url (search_params q k c (default 3 n)) = Raised e →
        google_custom_search env q k c n s = (Raised e, sent)) ∧
  (∀ r, requests_get env search_url (search_params q k c (default 3 n)) = Returned r →
        ¬ (400 ≤ status_code r < 600) →
        (json_body r = None →
         google_custom_search env q k c n s = (Raised JSONDecodeError, sent)) ∧
        (∀ body, json_body r = Some body → (∀ members, body ≠ JObj members) →
           ∃ msg, google_custom_search env q k c n s = (Raised (AttributeError msg), sent))).
Proof.
  simpl. split.
  - intros e Hget. rewrite google_custom_search_eq. simpl. by rewrite Hget.
  - intros r Hget Hok.
    assert ((400 <=? status_code r) && (status_code r <? 600) = false) as Hstatus.
    { apply andb_false_iff.
      destruct (Z.leb_spec 400 (status_code r)); [right; apply Z.ltb_ge; lia|by left]. }
    split.
    + intros Hbody. rewrite google_custom_search_eq. cbv zeta.
      rewrite Hget. unfold search_result. by rewrite Hstatus, Hbody.
    + intros body Hbody Hnot. rewrite google_custom_search_eq. cbv zeta.
      rewrite Hget. unfold search_result. rewrite Hstatus, Hbody.
      destruct body; simpl; try by eexists. by destruct (Hnot members).
Qed.

End SearchFailures.

(** ** The display copy: when there is none *)

(** X8.  There is no display copy for an image more than 500 times as wide
    as high (the new height is 0 and the resize refuses it with a
    [ValueError], unless loading the pixel data has failed before), nor for
    an image of height 0 or of width 0 (the divisions of lines 136 and 138
    raise [ZeroDivisionError]). *)
Theorem no_display_copy_for_flat_or_empty_images w h load new :
  let im := PILImage (w, h) load new in
  (0 < w < 2 ^ 31 → 0 < h < 2 ^ 31 → 500 * h < w →
   resized_image im =
     Raised (default (ValueError "height and width must be > 0") load)) ∧
  (h = 0 → resized_image im = Raised (ZeroDivisionError "division by zero")) ∧
  (w = 0 → 0 < h < 2 ^ 31 →
   resized_image im = Raised (ZeroDivisionError "float division by zero")).
Proof.
  intros im. split_and!.
  - intros Hw Hh Hflat.
    destruct (new_height_near_ratio im w h eq_refl Hw Hh) as (n & -> & Hn0 & Hlo & _).
    assert (n = 0) as -> by nia. unfold image_resize. simpl. by destruct load.
  - by intros ->.
  - intros -> Hh.
    destruct (Binary64.of_uint63_exact h ltac:(lia)) as (mh & eh & HFh & _).
    fold (float_of_int h) in HFh.
    unfold resized_image, int_truediv. simpl image_size. cbv iota beta.
    replace (h =? 0) with false by (symmetry; apply Z.eqb_neq; lia).
    simpl. unfold float_rtruediv.
    rewrite FloatAxioms.eqb_spec, FloatAxioms.div_spec, HFh. reflexivity.
Qed.

(** ** Sample runs of the further properties *)

Lemma key_entry_witness :
  ∃ els,
    let s' := State (<["GEMINI_API_KEY":=Some "K1"]> ∅) ∅ ([] ++ els) [] in
    app (env_of (Returned "") found_one) sample_secrets typing_key fresh_state =
      (Raised RerunException, s') ∧
    ∀ key, sample_secrets !! "SERPER_API_KEY" = Some key →
      (init_medical_agent sample_secrets s').1 =
        Returned (Some (Agent "K1" "gemini-2.0-flash-exp" None true)).
Proof.
  apply (key_entry_is_saved (env_of (Returned "") found_one) sample_secrets typing_key
           fresh_state); [reflexivity|discriminate].
Defined.

Lemma reset_witness :
  ∃ els,
    let s' := State (<["GEMINI_API_KEY":=None]> (session_state sample_state)) ∅
                    ([] ++ els) [] in
    app (env_of (Returned "") found_one) sample_secrets resetting sample_state =
      (Raised RerunException, s') ∧
    (init_medical_agent sample_secrets s').1 = Returned None.
Proof.
  apply (reset_clears_key (env_of (Returned "") found_one) sample_secrets resetting
           sample_state); reflexivity.
Defined.

Lemma stored_key_witness :
  session_state (app (env_of (Raised timed_out) found_one) sample_secrets trigger
                   sample_state).2 = session_state sample_state.
Proof.
  apply (stored_key_survives (env_of (Raised timed_out) found_one) sample_secrets trigger
           sample_state); reflexivity.
Defined.

Lemma no_search_key_witness :
  calls_made (app (env_of (Returned "### Findings...") found_one) ∅ trigger) sample_state = [].
Proof.
  apply (no_call_without_both_keys (env_of (Returned "### Findings...") found_one) ∅ trigger
           sample_state).
  right. reflexivity.
Defined.

Lemma no_click_witness :
  calls_made (app (env_of (Returned "### Findings...") found_one) sample_secrets looking)
    sample_state = [] ∧
  files (app (env_of (Returned "### Findings...") found_one) sample_secrets looking
           sample_state).2 = files sample_state.
Proof.
  apply (no_call_without_click (env_of (Returned "### Findings...") found_one)
           sample_secrets looking sample_state).
  reflexivity.
Defined.

Lemma model_call_witness :
  ∃ k file,
    session_state sample_state !! "GEMINI_API_KEY" = Some (Some k) ∧ k ≠ "" ∧
    is_Some (sample_secrets !! "SERPER_API_KEY") ∧
    chosen_file trigger = Some file ∧ analyze_clicked trigger = true ∧
    sample_agent = Agent k "gemini-2.0-flash-exp" None true ∧
    query = query ∧
    [(image_path, Some (getbuffer sample_file))] =
      [("temp_medical_image.png", Some (getbuffer file))].
Proof.
  apply (model_call_provenance (env_of (Returned "### Findings...") found_one)
           sample_secrets trigger sample_state).
  vm_compute. apply list_elem_of_here.
Defined.

Lemma dicom_witness :
  ∃ els,
    app env_unreadable sample_secrets dicom_trigger sample_state =
      (Raised UnidentifiedImageError,
       State (initialised sample_state) (files sample_state)
             (page sample_state ++ els ++ upload_prompt) (calls sample_state)).
Proof.
  apply (undisplayable_image_ends_run env_unreadable sample_secrets dicom_trigger
           sample_state dicom_file); reflexivity.
Defined.

Lemma flat_image_witness :
  resized_image (sound_image (1000, 1)) = Raised (ValueError "height and width must be > 0").
Proof.
  apply (proj1 (no_display_copy_for_flat_or_empty_images 1000 1 None (λ _, None))); lia.
Defined.

Lemma interrupt_witness :
  analyze (env_of (Raised interrupted) found_one) sample_secrets (Some sample_agent)
      sample_file sample_state =
    (Raised interrupted,
     State (session_state sample_state)
           (delete image_path (disk_at_call sample_file sample_state))
           (page sample_state)
           (calls sample_state ++ [model_call sample_agent sample_file])).
Proof.
  apply (interrupt_propagates_after_cleanup (env_of (Raised interrupted) found_one)
           sample_secrets sample_agent sample_file sample_state interrupted
           (disk_at_call sample_file sample_state)); reflexivity.
Defined.

Lemma search_failure_witness :
  analyze (env_of (Returned "### Findings...") (Returned forbidden)) sample_secrets
      (Some sample_agent) sample_file sample_state =
    (Returned tt,
     State (session_state sample_state)
           (delete image_path (disk_at_call sample_file sample_state))
           (page sample_state ++ report "### Findings..." ++
              [StError [Lit "Analysis error: "; Exn (HTTPError (status_code forbidden))]])
           (calls sample_state ++ [model_call sample_agent sample_file; fixed_search "S1"])).
Proof.
  apply (search_failure_keeps_report (env_of (Returned "### Findings...") (Returned forbidden))
           sample_secrets sample_agent sample_file sample_state "### Findings..."
           (disk_at_call sample_file sample_state) "S1" forbidden);
    [reflexivity..|simpl; lia].
Defined.

Lemma two_results_witness :
  analyze (env_of (Returned "### Findings...") found_two) sample_secrets
      (Some sample_agent) sample_file sample_state =
    (Returned tt,
     State (session_state sample_state)
           (delete image_path (disk_at_call sample_file sample_state))
           (page sample_state ++ report "### Findings..." ++ [literature_header] ++
              listing [one_item; second_item])
           (calls sample_state ++ [model_call sample_agent sample_file; fixed_search "S1"])).
Proof.
  apply (results_listed_in_order (env_of (Returned "### Findings...") found_two)
           sample_secrets sample_agent sample_file sample_state "### Findings..."
           (disk_at_call sample_file sample_state) "S1"
           (Response 200 (Some (JObj [("items", JArr [one_item; second_item])])))
           [("items", JArr [one_item; second_item])]).
  - reflexivity.
  - reflexivity.
  - reflexivity.
  - simpl. lia.
  - reflexivity.
  - reflexivity.
  - repeat constructor; by eexists.
Defined.

Lemma broken_result_witness :
  analyze (env_of (Returned "### Findings...") (Returned found_broken)) sample_secrets
      (Some sample_agent) sample_file sample_state =
    (Returned tt,
     State (session_state sample_state)
           (delete image_path (disk_at_call sample_file sample_state))
           (page sample_state ++ report "### Findings..." ++ [literature_header] ++
              listing [one_item] ++ [StError [Lit "Analysis error: "; Exn (KeyError "title")]])
           (calls sample_state ++ [model_call sample_agent sample_file; fixed_search "S1"])).
Proof.
  apply (broken_result_stops_listing (env_of (Returned "### Findings...") (Returned found_broken))
           sample_secrets sample_agent sample_file sample_state "### Findings..."
           (disk_at_call sample_file sample_state) "S1" found_broken
           [("items", JArr [one_item; untitled_item; second_item])]
           [one_item] untitled_item [second_item]).
  - reflexivity.
  - reflexivity.
  - reflexivity.
  - simpl. lia.
  - reflexivity.
  - reflexivity.
  - repeat constructor; by eexists.
  - reflexivity.
Defined.
